(** * doc-tester CLI: extraction, aggregation and reporting of doctests

    A shallow embedding of [src/cli-tool/src/index.js].  The script walks the
    exported symbols of a linked program, turns the [@example] / [@doctest]
    comment blocks into test units and hands each unit to the external
    [runTest]; the functions below follow the script function by function. *)

From Stdlib Require Import String Ascii.
From Stdlib Require Import List NArith ZArith Bool Lia Arith.
Import ListNotations.

Set Implicit Arguments.

(* ================================================================== *)
(** ** JavaScript strings *)

(** A JavaScript string is a sequence of UTF-16 code units. *)
Definition jsstring := list N.

(** ASCII literals of the script, written as Rocq strings. *)
Fixpoint lit (s : string) : jsstring :=
  match s with
  | EmptyString => []
  | String c r => N_of_ascii c :: lit r
  end.

Definition LF : N := 10.
Definition CR : N := 13.

Fixpoint jsstring_eqb (a b : jsstring) : bool :=
  match a, b with
  | [], [] => true
  | x :: a', y :: b' => N.eqb x y && jsstring_eqb a' b'
  | _, _ => false
  end.

(** [WhiteSpace] and [LineTerminator] code points of ECMAScript, the
    characters [String.prototype.trim] strips. *)
Definition isWhiteSpace (c : N) : bool :=
  (N.eqb c 9 || N.eqb c 10 || N.eqb c 11 || N.eqb c 12 || N.eqb c 13
   || N.eqb c 32 || N.eqb c 160 || N.eqb c 5760
   || (N.leb 8192 c && N.leb c 8202)
   || N.eqb c 8232 || N.eqb c 8233 || N.eqb c 8239 || N.eqb c 8287
   || N.eqb c 12288 || N.eqb c 65279)%bool.

Fixpoint trimStart (s : jsstring) : jsstring :=
  match s with
  | [] => []
  | c :: r => if isWhiteSpace c then trimStart r else s
  end.

Definition trimEnd (s : jsstring) : jsstring := rev (trimStart (rev s)).

(** [s.trim()] *)
Definition trim (s : jsstring) : jsstring := trimEnd (trimStart s).

Fixpoint startsWith (pat s : jsstring) : bool :=
  match pat, s with
  | [], _ => true
  | _ :: _, [] => false
  | p :: pat', c :: s' => N.eqb p c && startsWith pat' s'
  end.

Fixpoint indexOf_from (pat s : jsstring) (i : Z) : Z :=
  if startsWith pat s then i
  else match s with
       | [] => (-1)%Z
       | _ :: r => indexOf_from pat r (i + 1)%Z
       end.

(** [s.indexOf(pat)]: position of the first occurrence, [-1] when there is
    none. *)
Definition indexOf (s pat : jsstring) : Z := indexOf_from pat s 0%Z.

(** [s.split(sep)] for a separator of one code unit; the script only splits
    on ["\n"].  The result is never empty: the empty string splits into one
    empty piece. *)
Fixpoint split (sep : N) (s : jsstring) : list jsstring :=
  match s with
  | [] => [[]]
  | c :: r =>
      if N.eqb c sep then [] :: split sep r
      else match split sep r with
           | [] => [[c]]
           | l :: ls => (c :: l) :: ls
           end
  end.

(** The inverse of [split]: the pieces glued with the separator. *)
Fixpoint unsplit (sep : N) (ls : list jsstring) : jsstring :=
  match ls with
  | [] => []
  | [l] => l
  | l :: r => l ++ sep :: unsplit sep r
  end.

(** [arr.join('')] on an array of strings. *)
Definition join (arr : list jsstring) : jsstring := concat arr.

(** [arr.indexOf(x)] on an array of strings (strict equality). *)
Fixpoint Array_indexOf_from (arr : list jsstring) (x : jsstring) (i : Z) : Z :=
  match arr with
  | [] => (-1)%Z
  | y :: r => if jsstring_eqb y x then i else Array_indexOf_from r x (i + 1)%Z
  end.

Definition Array_indexOf (arr : list jsstring) (x : jsstring) : Z :=
  Array_indexOf_from arr x 0%Z.

(* ================================================================== *)
(** ** Values that may be [undefined] *)

(** [isDefined(arg)]: [typeof arg !== 'undefined']. *)
Definition isDefined {A : Type} (arg : option A) : bool :=
  match arg with
  | Some _ => true
  | None => false
  end.

(** [arr.filter(isDefined)]: the type guard narrows the element type, so the
    surviving elements are returned without their [option] wrapper. *)
Fixpoint filter_isDefined {A : Type} (arr : list (option A)) : list A :=
  match arr with
  | [] => []
  | x :: r => if isDefined x
              then match x with
                   | Some a => a :: filter_isDefined r
                   | None => filter_isDefined r
                   end
              else filter_isDefined r
  end.

(** A JavaScript object used as a dictionary: its own enumerable string keys
    in [Object.keys] order; a property may hold [undefined]. *)
Definition Dict (V : Type) := list (jsstring * option V).

Definition Object_keys {V : Type} (o : Dict V) : list jsstring := map fst o.

(** [o[k]]: [undefined] when the key is missing. *)
Fixpoint get {V : Type} (o : Dict V) (k : jsstring) : option V :=
  match o with
  | [] => None
  | (k', v) :: r => if jsstring_eqb k' k then v else get r k
  end.

(* ================================================================== *)
(** ** Data model *)

(** [DocTest] *)
Record DocTest := mkDocTest {
  codeArray : list jsstring;
  importsArray : list jsstring
}.

(** [DocTestSymbol]; its [name] field is [dts_name] here. *)
Record DocTestSymbol := mkDocTestSymbol {
  dts_name : jsstring;
  tests : list DocTest
}.

(** [DocTestFile]; its [name] field is [dtf_name] here. *)
Record DocTestFile := mkDocTestFile {
  dtf_name : jsstring;
  symbols : list DocTestSymbol
}.

(** [comments.CommentBlockTag]: the fields the script reads.  [content] is an
    array of fragments, or absent; the fragments are taken as the text that
    [join('')] makes of them. *)
Record CommentBlockTag := mkTag {
  tagName : jsstring;
  content : option (list jsstring)
}.

Record Documentation := mkDocumentation {
  customTags : option (list CommentBlockTag)
}.

(** [linker.LinkedFormattedSymbol]: the fields the script reads.  The export
    table of a symbol holds symbols again. *)
#[local] Unset Elimination Schemes.
Inductive LinkedFormattedSymbol := mkSymbol {
  name : jsstring;
  documentation : option Documentation;
  exports : option (list (jsstring * option LinkedFormattedSymbol))
}.
#[local] Set Elimination Schemes.

(** [linker.LinkedFormattedSourceFile] *)
Record LinkedFormattedSourceFile := mkSourceFile {
  moduleName : jsstring;
  symbol : option LinkedFormattedSymbol
}.

(** [linker.LinkedFormattedOutputData] *)
Record LinkedFormattedOutputData := mkLinked {
  sourceFiles : Dict LinkedFormattedSourceFile
}.

(* ================================================================== *)
(** ** Tag extractor *)

(** The callback of [forEach] in [gatherDocTest]: one line is pushed onto
    [importsArray] or [codeArray].  [typeof s === 'string'] holds for every
    element [split] returns, so only [s !== '\n'] is left of the guard. *)
Definition gatherDocTest_line (acc : DocTest) (s : jsstring) : DocTest :=
  if negb (jsstring_eqb s [LF]) then
    if Z.eqb (indexOf (trim s) (lit "import")) 0 then
      mkDocTest (codeArray acc) (importsArray acc ++ [s])
    else
      mkDocTest (codeArray acc ++ [s]) (importsArray acc)
  else acc.

Definition gatherDocTest (tag : CommentBlockTag) : option DocTest :=
  match content tag with
  | None => None
  | Some content =>
      Some (fold_left gatherDocTest_line (split LF (join content))
                      (mkDocTest [] []))
  end.

(* ================================================================== *)
(** ** Symbol, file and program aggregators *)

Definition gatherSymbolDocTests (sym : LinkedFormattedSymbol)
  : option DocTestSymbol :=
  match documentation sym with
  | None => None
  | Some documentation =>
      match customTags documentation with
      | None => None
      | Some customTags =>
          let examples :=
            filter (fun ct =>
                      Z.geb (Array_indexOf [lit "example"; lit "doctest"]
                                           (tagName ct)) 0)
                   customTags in
          if Nat.eqb (length examples) 0 then None
          else Some (mkDocTestSymbol
                       (name sym)
                       (filter_isDefined (map gatherDocTest examples)))
      end
  end.

Definition gatherFileDocTests (file : LinkedFormattedSourceFile)
  : option DocTestFile :=
  match symbol file with
  | None => None
  | Some fileSym =>
      match exports fileSym with
      | None => None
      | Some fileExports =>
          let exportSyms :=
            filter_isDefined
              (map (fun expName => get fileExports expName)
                   (Object_keys fileExports)) in
          Some (mkDocTestFile
                  (moduleName file)
                  (filter_isDefined (map gatherSymbolDocTests exportSyms)))
      end
  end.

Definition gatherProgramDocTests (linked : LinkedFormattedOutputData)
  : list DocTestFile :=
  filter_isDefined
    (map gatherFileDocTests
         (filter_isDefined
            (map (fun k => get (sourceFiles linked) k)
                 (Object_keys (sourceFiles linked))))).

(* ================================================================== *)
(** ** Promises and the console *)

(** A raised value: an [Error] object with its [name] and [message]. *)
Record JsError := mkError {
  err_name : jsstring;
  err_message : jsstring
}.

(** [new Error(msg)] *)
Definition new_Error (msg : jsstring) : JsError := mkError (lit "Error") msg.

(** [Error.prototype.toString], what [`${err}`] interpolates. *)
Definition Error_toString (e : JsError) : jsstring :=
  match err_name e, err_message e with
  | [], msg => msg
  | nm, [] => nm
  | nm, msg => nm ++ lit ": " ++ msg
  end.

Inductive settled (A : Type) : Type :=
| Fulfilled (a : A)
| Rejected (e : JsError).
Arguments Fulfilled {A} a.
Arguments Rejected {A} e.

(** A promise, seen from outside: how it settles and the logical time at
    which it does.  Time only orders settlements; the synchronous part of a
    call runs within one tick. *)
Record Promise (A : Type) := mkPromise {
  outcome : settled A;
  settledAt : nat
}.

(** What an external asynchronous collaborator answers to one call: the
    settlement of the promise it returns and how long that takes. *)
Record Reply (A : Type) := mkReply {
  reply : settled A;
  delay : nat
}.

(** The observable actions of the script: console lines and calls of the
    external collaborators. *)
Inductive action :=
| console_log (line : jsstring)
| call_createProgramFromTsConfig (pth : jsstring)
| call_findPkgJson (pth : jsstring)
| call_createReverseResolver
| call_walkProgram
| call_formatWalkerOutput
| call_linkFormatterData
| call_runTest (t : DocTest).

Record event := mkEvent {
  at_tick : nat;
  act : action
}.

(** The state threaded through the script: the current tick, the events so
    far and the number of [runTest] calls made.  The events are listed in the
    order in which the callbacks are entered; each carries the tick at which
    it happens, and it is the ticks that order them in time (see
    [chronological]). *)
Record World := mkWorld {
  now : nat;
  trace : list event;
  runs : nat
}.

(** Code that may log, call collaborators, await and throw. *)
Definition Async (A : Type) := World -> settled A * World.

Definition ret {A} (a : A) : Async A := fun w => (Fulfilled a, w).

Definition throw {A} (e : JsError) : Async A := fun w => (Rejected e, w).

Definition bind {A B} (m : Async A) (f : A -> Async B) : Async B :=
  fun w => match m w with
           | (Fulfilled a, w') => f a w'
           | (Rejected e, w') => (Rejected e, w')
           end.

Notation "x <- m ;; k" := (bind m (fun x => k))
  (at level 61, m at next level, right associativity).
Notation "m ;;; k" := (bind m (fun _ => k))
  (at level 61, right associativity).

(** [try { m } catch (e) { h(e) }] *)
Definition try_catch {A} (m : Async A) (h : JsError -> Async A) : Async A :=
  fun w => match m w with
           | (Fulfilled a, w') => (Fulfilled a, w')
           | (Rejected e, w') => h e w'
           end.

Definition emit (a : action) : Async unit :=
  fun w => (Fulfilled tt,
            mkWorld (now w) (trace w ++ [mkEvent (now w) a]) (runs w)).

(** [await p]: the continuation runs once [p] has settled. *)
Definition await {A} (p : Promise A) : Async A :=
  fun w => (outcome p,
            mkWorld (Nat.max (now w) (settledAt p)) (trace w) (runs w)).

(** Calling an [async] function: its body runs, each of its events at the
    tick it reaches; the caller gets the promise at once and goes on at its
    own tick.  A body that throws rejects the promise, the call never
    throws. *)
Definition async {A} (body : Async A) : Async (Promise A) :=
  fun w => let '(r, w') := body w in
           (Fulfilled (mkPromise r (now w')),
            mkWorld (now w) (trace w') (runs w')).

(** [p.then(f)] *)
Definition then_ {A B} (p : Promise A) (f : A -> Async B)
  : Async (Promise B) :=
  async (a <- await p ;; f a).

(** [p.catch(g)] *)
Definition catch_ {A} (p : Promise A) (g : JsError -> Async A)
  : Async (Promise A) :=
  async (try_catch (await p) g).

(** [arr.map(f)] for a callback with effects: the calls happen in array
    order. *)
Fixpoint Array_map {A B} (f : A -> Async B) (arr : list A) : Async (list B) :=
  match arr with
  | [] => ret []
  | x :: r => y <- f x ;; ys <- Array_map f r ;; ret (y :: ys)
  end.

(** [Promise.all(ps)]: fulfilled with all the values once the last input is
    fulfilled; rejected as soon as one input rejects, with the rejection that
    happens first (the earlier element on a tie). *)
Fixpoint Promise_all {A} (ps : list (Promise A)) : Promise (list A) :=
  match ps with
  | [] => mkPromise (Fulfilled []) 0
  | p :: r =>
      let pr := Promise_all r in
      match outcome p, outcome pr with
      | Fulfilled a, Fulfilled vs =>
          mkPromise (Fulfilled (a :: vs)) (Nat.max (settledAt p) (settledAt pr))
      | Fulfilled _, Rejected _ => pr
      | Rejected e, Fulfilled _ => mkPromise (Rejected e) (settledAt p)
      | Rejected e, Rejected _ =>
          if Nat.leb (settledAt p) (settledAt pr)
          then mkPromise (Rejected e) (settledAt p)
          else pr
      end
  end.

(** Running a piece of the script from the start of time. *)
Definition run {A} (m : Async A) : settled A * World := m (mkWorld 0 [] 0).

(* ================================================================== *)
(** ** Console lines *)

(** [`  📦  ${fileName} - no exported symbols w/ doctests`]; the package
    emoji is the surrogate pair [D83D DCE6]. *)
Definition line_file_empty (fileName : jsstring) : jsstring :=
  lit "  " ++ [55357; 56550]%N ++ lit "  " ++ fileName
  ++ lit " - no exported symbols w/ doctests".

(** [`  📦  ${fileName}`] *)
Definition line_file (fileName : jsstring) : jsstring :=
  lit "  " ++ [55357; 56550]%N ++ lit "  " ++ fileName.

(** [`    ${symName} - no doctests`] *)
Definition line_symbol_empty (symName : jsstring) : jsstring :=
  lit "    " ++ symName ++ lit " - no doctests".

(** [`    ✅ ${symName}`] *)
Definition line_pass (symName : jsstring) : jsstring :=
  lit "    " ++ [9989]%N ++ lit " " ++ symName.

(** [`    ❌ ${symName}: ${err}`] *)
Definition line_fail (symName : jsstring) (err : JsError) : jsstring :=
  lit "    " ++ [10060]%N ++ lit " " ++ symName ++ lit ": "
  ++ Error_toString err.

(** [`Could not find package.json via search path "${pth}"`] *)
Definition msg_no_pkg (pth : jsstring) : jsstring :=
  lit "Could not find package.json via search path " ++ [34]%N ++ pth
  ++ [34]%N.

(* ================================================================== *)
(** ** The entry operation *)

(** The package descriptor [findPkgJson] returns, and the [pkgInfo] object
    the script builds from it. *)
Record PkgContents := mkPkgContents {
  pkg_name : option jsstring;
  pkg_doc_main : option jsstring;
  pkg_main : option jsstring
}.

Record Pkg := mkPkg {
  pkg_path : jsstring;
  contents : PkgContents
}.

Record PkgInfo := mkPkgInfo {
  info_path : jsstring;
  info_name : option jsstring;
  info_main : option jsstring
}.

(** [a || b] on strings that may be [undefined]: the empty string is falsy
    too. *)
Definition or_else (a b : option jsstring) : option jsstring :=
  match a with
  | Some (_ :: _) => a
  | _ => b
  end.

Section Reporter.

(** The external collaborators.  Their types are opaque to the script. *)
Variables Program PathNormalizer WalkerOutput FormatterData : Type.
Variable createProgramFromTsConfig : jsstring -> Reply Program.
Variable findPkgJson : jsstring -> Reply (option Pkg).
Variable createReverseResolver : PkgInfo -> settled PathNormalizer.
Variable walkProgram : Program -> PathNormalizer -> settled WalkerOutput.
(** [formatWalkerOutput(walkerOutput).data] *)
Variable formatWalkerOutput : WalkerOutput -> settled FormatterData.
Variable linkFormatterData :
  FormatterData -> settled LinkedFormattedOutputData.
(** [runTest]: the answer to its [k]-th call of the run, on a test unit. *)
Variable runTest : nat -> DocTest -> Reply unit.
(** [JSON.stringify({ codeArray, importsArray }, null, '  ')] *)
Variable JSON_stringify : DocTest -> jsstring.

(** A synchronous call of a collaborator, which may throw. *)
Definition call {A} (a : action) (r : settled A) : Async A :=
  emit a ;;; (fun w => (r, w)).

(** A call of an asynchronous collaborator: the promise it returns settles
    after the current tick. *)
Definition call_async {A} (a : action) (r : Reply A) : Async (Promise A) :=
  emit a ;;;
  (fun w => (Fulfilled (mkPromise (reply r) (now w + S (delay r))), w)).

Definition invoke_runTest (t : DocTest) : Async (Promise unit) :=
  fun w =>
    call_async (call_runTest t) (runTest (runs w) t)
               (mkWorld (now w) (trace w) (S (runs w))).

Definition line_invoking (t : DocTest) : jsstring :=
  lit "invoking" ++ [LF; LF] ++ lit "runTest(" ++ JSON_stringify t
  ++ lit ");" ++ [LF; LF; LF].

(** The callback of [tests.map]. *)
Definition report_test (t : DocTest) : Async unit :=
  emit (console_log (line_invoking t)) ;;;
  p <- invoke_runTest t ;;
  await p.

(** The callback of [symbols.map]. *)
Definition report_symbol (s : DocTestSymbol) : Async unit :=
  let symName := dts_name s in
  if Nat.eqb (length (tests s)) 0 then
    emit (console_log (line_symbol_empty symName))
  else
    ps <- Array_map (fun t => async (report_test t)) (tests s) ;;
    p1 <- then_ (Promise_all ps)
                (fun _ => emit (console_log (line_pass symName))) ;;
    p2 <- catch_ p1
                 (fun err => emit (console_log (line_fail symName err))) ;;
    await p2.

(** The callback of [docTests.map]. *)
Definition report_file (file : DocTestFile) : Async unit :=
  let fileName := dtf_name file in
  if Nat.eqb (length (symbols file)) 0 then
    emit (console_log (line_file_empty fileName))
  else
    emit (console_log (line_file fileName)) ;;;
    ps <- Array_map (fun s => async (report_symbol s)) (symbols file) ;;
    _ <- await (Promise_all ps) ;;
    ret tt.

(** The last statement of [doctestProgram]: the report of the whole
    program. *)
Definition report_program (docTests : list DocTestFile) : Async unit :=
  ps <- Array_map (fun file => async (report_file file)) docTests ;;
  _ <- await (Promise_all ps) ;;
  ret tt.

Definition doctestProgram (pth : jsstring) : Async unit :=
  p <- call_async (call_createProgramFromTsConfig pth)
                  (createProgramFromTsConfig pth) ;;
  prog <- await p ;;
  p <- call_async (call_findPkgJson pth) (findPkgJson pth) ;;
  pkg <- await p ;;
  match pkg with
  | None => throw (new_Error (msg_no_pkg pth))
  | Some pkg =>
      let pkgInfo :=
        mkPkgInfo (pkg_path pkg)
                  (pkg_name (contents pkg))
                  (or_else (or_else (pkg_doc_main (contents pkg))
                                    (pkg_main (contents pkg)))
                           (Some (pkg_path pkg))) in
      pathNormalizer <- call call_createReverseResolver
                             (createReverseResolver pkgInfo) ;;
      walkerOutput <- call call_walkProgram
                           (walkProgram prog pathNormalizer) ;;
      formatted <- call call_formatWalkerOutput
                        (formatWalkerOutput walkerOutput) ;;
      linked <- call call_linkFormatterData
                     (linkFormatterData formatted) ;;
      let docTests := gatherProgramDocTests linked in
      report_program docTests
  end.

(** What launching the tests of a symbol at tick [t0] leaves behind, the
    runner having been called [k] times before: the promises of the
    callbacks, and the events. *)
Fixpoint test_promises (t0 k : nat) (ts : list DocTest)
  : list (Promise unit) :=
  match ts with
  | [] => []
  | t :: r =>
      mkPromise (reply (runTest k t)) (t0 + S (delay (runTest k t)))
      :: test_promises t0 (S k) r
  end.

Fixpoint test_events (t0 : nat) (ts : list DocTest) : list event :=
  match ts with
  | [] => []
  | t :: r =>
      mkEvent t0 (console_log (line_invoking t))
      :: mkEvent t0 (call_runTest t)
      :: test_events t0 r
  end.

(** The line that closes the report of a symbol, by the settlement of
    [Promise.all] over its tests. *)
Definition verdict_line (symName : jsstring) (p : Promise (list unit))
  : jsstring :=
  match outcome p with
  | Fulfilled _ => line_pass symName
  | Rejected err => line_fail symName err
  end.

End Reporter.

(** The test units handed to [runTest], in call order. *)
Fixpoint runTest_calls (evs : list event) : list DocTest :=
  match evs with
  | [] => []
  | ev :: r =>
      match act ev with
      | call_runTest t => t :: runTest_calls r
      | _ => runTest_calls r
      end
  end.

(** The lines written to the console. *)
Fixpoint console_lines (evs : list event) : list jsstring :=
  match evs with
  | [] => []
  | ev :: r =>
      match act ev with
      | console_log line => line :: console_lines r
      | _ => console_lines r
      end
  end.

(** The events in the order of their ticks; the events of one tick stay in
    the order in which they were recorded. *)
Fixpoint insert_event (e : event) (l : list event) : list event :=
  match l with
  | [] => [e]
  | x :: r => if Nat.leb (at_tick e) (at_tick x) then e :: l
              else x :: insert_event e r
  end.

Definition chronological (evs : list event) : list event :=
  fold_right insert_event [] evs.

(** [m] occurs in [s]. *)
Definition is_infix (m s : jsstring) : Prop :=
  exists a b, s = a ++ m ++ b.

(** All the test units of a program, file by file and symbol by symbol. *)
Definition all_tests (docTests : list DocTestFile) : list DocTest :=
  flat_map (fun file => flat_map tests (symbols file)) docTests.

(* ================================================================== *)
(** ** The spec's reading of a line *)

(** The import test in the spec's words: trim the leading whitespace, then
    look for the literal prefix [import]. *)
Definition spec_isImportLine (s : jsstring) : bool :=
  startsWith (lit "import") (trimStart s).

(** The guard of the script on a line: [s !== '\n']. *)
Definition kept (s : jsstring) : bool := negb (jsstring_eqb s [LF]).

(** A tag is one of the two recognised kinds. *)
Definition is_example (ct : CommentBlockTag) : bool :=
  jsstring_eqb (tagName ct) (lit "example")
  || jsstring_eqb (tagName ct) (lit "doctest").

(** Putting two sequences back together by original position: [flags] says,
    position by position, from which of the two the line came. *)
Fixpoint interleave (flags : list bool) (imports code : list jsstring)
  : list jsstring :=
  match flags with
  | [] => []
  | true :: fs =>
      match imports with
      | i :: imports' => i :: interleave fs imports' code
      | [] => interleave fs [] code
      end
  | false :: fs =>
      match code with
      | c :: code' => c :: interleave fs imports code'
      | [] => interleave fs imports []
      end
  end.

(** A dictionary without the properties that hold [undefined]. *)
Definition without_undefined {V : Type} (o : Dict V) : Dict V :=
  filter (fun kv => isDefined (snd kv)) o.

(** The export table of a file, when the file has a symbol and the symbol
    has one. *)
Definition export_table (file : LinkedFormattedSourceFile)
  : option (Dict LinkedFormattedSymbol) :=
  match symbol file with
  | Some fileSym => exports fileSym
  | None => None
  end.

(** The symbol carries at least one tag named [example] or [doctest]. *)
Definition has_example_tag (sym : LinkedFormattedSymbol) : bool :=
  match documentation sym with
  | Some doc =>
      match customTags doc with
      | Some tags => existsb is_example tags
      | None => false
      end
  | None => false
  end.

(** The keys of a JavaScript object are pairwise distinct. *)
Fixpoint distinct (ks : list jsstring) : bool :=
  match ks with
  | [] => true
  | k :: r => negb (existsb (jsstring_eqb k) r) && distinct r
  end.

Definition wf_file (file : LinkedFormattedSourceFile) : bool :=
  match export_table file with
  | Some e => distinct (Object_keys e)
  | None => true
  end.

Definition wf_linked (linked : LinkedFormattedOutputData) : bool :=
  distinct (Object_keys (sourceFiles linked))
  && forallb (fun kv => match snd kv with
                        | Some file => wf_file file
                        | None => true
                        end)
             (sourceFiles linked).

(** A file, and a linked program, with every [undefined] entry of the export
    tables and of the source-file mapping taken out. *)
Definition file_without_undefined (file : LinkedFormattedSourceFile)
  : LinkedFormattedSourceFile :=
  mkSourceFile
    (moduleName file)
    (match symbol file with
     | Some fileSym =>
         Some (mkSymbol (name fileSym) (documentation fileSym)
                        (match exports fileSym with
                         | Some e => Some (without_undefined e)
                         | None => None
                         end))
     | None => None
     end).

Definition linked_without_undefined (linked : LinkedFormattedOutputData)
  : LinkedFormattedOutputData :=
  mkLinked
    (map (fun kv => (fst kv, option_map file_without_undefined (snd kv)))
         (without_undefined (sourceFiles linked))).

(* ================================================================== *)
(** ** Sample inputs *)

(** The [@example] block of the symbol [add]: an import line and a code
    line. *)
Definition sample_tag : CommentBlockTag :=
  mkTag (lit "example")
        (Some [lit "import { add } from './math';" ++ [LF];
               lit "add(1, 2); // 3"]).

Definition sample_add : LinkedFormattedSymbol :=
  mkSymbol (lit "add") (Some (mkDocumentation (Some [sample_tag]))) None.

(** A symbol whose only [@example] block has no content, and one without
    documentation. *)
Definition sample_contentless : LinkedFormattedSymbol :=
  mkSymbol (lit "add")
           (Some (mkDocumentation (Some [mkTag (lit "example") None])))
           None.

Definition sample_undocumented : LinkedFormattedSymbol :=
  mkSymbol (lit "helper") None None.

(** A file whose export table holds an [undefined] entry besides [add], a
    file whose only export has no documentation, and a program with both and
    an [undefined] file. *)
Definition sample_file : LinkedFormattedSourceFile :=
  mkSourceFile
    (lit "math")
    (Some (mkSymbol (lit "math") None
                    (Some [(lit "gone", None); (lit "add", Some sample_add)]))).

Definition sample_quiet_file : LinkedFormattedSourceFile :=
  mkSourceFile
    (lit "util")
    (Some (mkSymbol (lit "util") None
                    (Some [(lit "helper", Some sample_undocumented)]))).

Definition sample_linked : LinkedFormattedOutputData :=
  mkLinked [(lit "math.ts", Some sample_file);
            (lit "old.ts", None);
            (lit "util.ts", Some sample_quiet_file)].

(** Two test units and a runner that fulfils its first call late and rejects
    its second call early. *)
Definition sample_T1 : DocTest := mkDocTest [lit "ok();"] [].
Definition sample_T2 : DocTest := mkDocTest [lit "boom();"] [].

Definition sample_symbol : DocTestSymbol :=
  mkDocTestSymbol (lit "add") [sample_T1; sample_T2].

Definition sample_runTest (k : nat) (t : DocTest) : Reply unit :=
  if Nat.eqb k 1 then mkReply (Rejected (new_Error (lit "boom"))) 0
  else mkReply (Fulfilled tt) 5.

Definition sample_stringify (t : DocTest) : jsstring := lit "{}".

(** Collaborators of a run in which no [package.json] is found. *)
Definition sample_createProgram (pth : jsstring) : Reply unit :=
  mkReply (Fulfilled tt) 0.

Definition sample_findPkgJson_none (pth : jsstring) : Reply (option Pkg) :=
  mkReply (Fulfilled None) 0.

Definition sample_findPkgJson (pth : jsstring) : Reply (option Pkg) :=
  mkReply (Fulfilled
             (Some (mkPkg (lit "/p/package.json")
                          (mkPkgContents (Some (lit "p")) None
                                         (Some (lit "index.js"))))))
          0.

Definition sample_sync {A : Type} (_ : A) : settled unit := Fulfilled tt.

Definition sample_walk (_ _ : unit) : settled unit := Fulfilled tt.

Definition sample_link (_ : unit) : settled LinkedFormattedOutputData :=
  Fulfilled sample_linked.

(* ================================================================== *)
(** ** Measures used by the further properties *)

(** The number of line feeds of a string. *)
Definition count_LF (s : jsstring) : nat := count_occ N.eq_dec s LF.

(** The number of code units of the lines of an array. *)
Definition total_length (lines : list jsstring) : nat :=
  length (concat lines).

(** The tag has content. *)
Definition has_content (ct : CommentBlockTag) : bool :=
  isDefined (content ct).

(** The file exposes an export table. *)
Definition has_export_table (file : LinkedFormattedSourceFile) : bool :=
  isDefined (export_table file).

(** The defined values of a dictionary, read key by key as the script does:
    [Object.keys(o).map(k => o[k]).filter(isDefined)]. *)
Definition defined_values {V : Type} (o : Dict V) : list V :=
  filter_isDefined (map (fun k => get o k) (Object_keys o)).

(** An event of a report started at tick [t0]: a call of the runner happens
    at [t0], nothing happens before [t0]. *)
Definition in_launch_phase (t0 : nat) (ev : event) : bool :=
  match act ev with
  | call_runTest _ => Nat.eqb (at_tick ev) t0
  | _ => Nat.leb t0 (at_tick ev)
  end.

(** The [pkgInfo] object [doctestProgram] builds from the package
    descriptor. *)
Definition pkgInfo_of (pkg : Pkg) : PkgInfo :=
  mkPkgInfo (pkg_path pkg)
            (pkg_name (contents pkg))
            (or_else (or_else (pkg_doc_main (contents pkg))
                              (pkg_main (contents pkg)))
                     (Some (pkg_path pkg))).

(** A string that may be [undefined] is truthy: defined and not empty. *)
Definition truthy (v : option jsstring) : bool :=
  match v with
  | Some (_ :: _) => true
  | _ => false
  end.

(* ================================================================== *)
(** ** Strings: basic facts *)

Lemma jsstring_eqb_eq (a b : jsstring) : jsstring_eqb a b = true <-> a = b.
Proof.
  revert b; induction a as [|x a IH]; intros [|y b]; simpl; split;
    try congruence; try reflexivity.
  - rewrite andb_true_iff, N.eqb_eq, IH. intros [-> ->]; reflexivity.
  - intros E; injection E as -> ->.
    rewrite N.eqb_refl; simpl. apply IH; reflexivity.
Qed.

Lemma jsstring_eqb_refl (a : jsstring) : jsstring_eqb a a = true.
Proof. apply jsstring_eqb_eq; reflexivity. Qed.

Lemma jsstring_eqb_neq (a b : jsstring) : jsstring_eqb a b = false <-> a <> b.
Proof.
  rewrite <- jsstring_eqb_eq. destruct (jsstring_eqb a b); split;
    congruence.
Qed.

Lemma split_nonempty (sep : N) (s : jsstring) : split sep s <> [].
Proof.
  induction s as [|c r IH]; simpl; [discriminate|].
  destruct (N.eqb c sep); [discriminate|].
  destruct (split sep r); discriminate.
Qed.

(** No piece of a split contains the separator. *)
Lemma split_no_sep (sep : N) (s l : jsstring) :
  In l (split sep s) -> ~ In sep l.
Proof.
  revert l; induction s as [|c r IH]; simpl; intros l.
  - intros [<-|[]]; simpl; tauto.
  - destruct (N.eqb c sep) eqn:E.
    + intros [<-|H]; [simpl; tauto | apply IH; exact H].
    + destruct (split sep r) as [|l0 ls] eqn:S.
      * exfalso; exact (split_nonempty sep r S).
      * intros [<-|H].
        -- simpl. intros [->|H0].
           ++ rewrite N.eqb_refl in E; discriminate.
           ++ exact (IH l0 (or_introl eq_refl) H0).
        -- exact (IH l (or_intror H)).
Qed.

(** Gluing the pieces of a split back with the separator gives the string
    again. *)
Lemma unsplit_split (sep : N) (s : jsstring) : unsplit sep (split sep s) = s.
Proof.
  induction s as [|c r IH]; simpl; [reflexivity|].
  destruct (N.eqb c sep) eqn:E.
  - apply N.eqb_eq in E; subst c.
    destruct (split sep r) eqn:S; [exfalso; exact (split_nonempty _ _ S)|].
    simpl in *. rewrite IH; reflexivity.
  - destruct (split sep r) as [|l0 ls] eqn:S;
      [exfalso; exact (split_nonempty _ _ S)|].
    destruct ls; simpl in *; rewrite <- IH; reflexivity.
Qed.

(** After [split('\n')] the guard [s !== '\n'] lets every line through. *)
Lemma kept_after_split (s l : jsstring) : In l (split LF s) -> kept l = true.
Proof.
  intros H. unfold kept. apply negb_true_iff, jsstring_eqb_neq.
  intros ->. apply (split_no_sep _ _ _ H). simpl; tauto.
Qed.

Lemma filter_kept_split (s : jsstring) :
  filter kept (split LF s) = split LF s.
Proof.
  apply forallb_filter_id, forallb_forall.
  intros l; apply kept_after_split.
Qed.

Lemma indexOf_from_range (pat s : jsstring) (i : Z) :
  indexOf_from pat s i = (-1)%Z \/ (i <= indexOf_from pat s i)%Z.
Proof.
  revert i; induction s as [|c r IH]; intros i; simpl.
  - destruct (startsWith pat []); [right; lia | left; reflexivity].
  - destruct (startsWith pat (c :: r)); [right; lia|].
    destruct (IH (i + 1)%Z); [left; assumption | right; lia].
Qed.

(** [s.indexOf(pat) === 0] says that [pat] is a prefix of [s]. *)
Lemma indexOf_zero (s pat : jsstring) :
  Z.eqb (indexOf s pat) 0 = startsWith pat s.
Proof.
  unfold indexOf. destruct s as [|c r]; simpl.
  - destruct (startsWith pat []); reflexivity.
  - destruct (startsWith pat (c :: r)); [reflexivity|].
    destruct (indexOf_from_range pat r 1) as [-> | H]; [reflexivity|].
    apply Z.eqb_neq; lia.
Qed.

Lemma trimStart_decompose (s : jsstring) :
  exists ws, s = ws ++ trimStart s /\ forallb isWhiteSpace ws = true.
Proof.
  induction s as [|c r [ws [E W]]]; simpl.
  - exists []; split; reflexivity.
  - destruct (isWhiteSpace c) eqn:C.
    + exists (c :: ws); simpl; rewrite C, W; split; [f_equal; exact E | reflexivity].
    + exists []; split; reflexivity.
Qed.

Lemma trimEnd_decompose (s : jsstring) :
  exists ws, s = trimEnd s ++ ws /\ forallb isWhiteSpace ws = true.
Proof.
  unfold trimEnd. destruct (trimStart_decompose (rev s)) as [ws [E W]].
  exists (rev ws); split.
  - rewrite <- rev_app_distr, <- E, rev_involutive; reflexivity.
  - rewrite forallb_forall in *. intros x Hx; apply W, in_rev, Hx.
Qed.

(** Whitespace after a string does not change whether a pattern without
    whitespace is a prefix of it. *)
Lemma startsWith_app_ws (pat a ws : jsstring) :
  forallb (fun c => negb (isWhiteSpace c)) pat = true ->
  forallb isWhiteSpace ws = true ->
  startsWith pat (a ++ ws) = startsWith pat a.
Proof.
  revert a; induction pat as [|p pat IH]; intros a Hp Hw; [destruct a; reflexivity|].
  simpl in Hp; apply andb_true_iff in Hp as [Hp1 Hp2].
  destruct a as [|x a]; simpl.
  - destruct ws as [|c ws]; [reflexivity|]. simpl in Hw.
    apply andb_true_iff in Hw as [Hc _].
    destruct (N.eqb p c) eqn:E; [|reflexivity].
    apply N.eqb_eq in E; subst c. rewrite Hc in Hp1; discriminate.
  - rewrite (IH a Hp2 Hw); reflexivity.
Qed.

(** The script trims both ends, the spec only the front: for the prefix
    [import] this is the same test. *)
Lemma import_test_refines (s : jsstring) :
  Z.eqb (indexOf (trim s) (lit "import")) 0 = spec_isImportLine s.
Proof.
  rewrite indexOf_zero. unfold spec_isImportLine, trim.
  destruct (trimEnd_decompose (trimStart s)) as [ws [E W]].
  rewrite E at 2. symmetry; apply startsWith_app_ws; [reflexivity | exact W].
Qed.

(* ================================================================== *)
(** ** Tag extractor: what the loop computes *)

Lemma gatherDocTest_loop (lines : list jsstring) (acc : DocTest) :
  fold_left gatherDocTest_line lines acc =
  mkDocTest
    (codeArray acc
     ++ filter (fun s => negb (spec_isImportLine s)) (filter kept lines))
    (importsArray acc ++ filter spec_isImportLine (filter kept lines)).
Proof.
  revert acc; induction lines as [|s lines IH]; intros [code imports]; simpl.
  - rewrite !app_nil_r; reflexivity.
  - rewrite IH. unfold gatherDocTest_line. fold (kept s).
    destruct (kept s); simpl; [|reflexivity].
    rewrite import_test_refines.
    destruct (spec_isImportLine s); simpl; rewrite <- app_assoc; reflexivity.
Qed.

Lemma gatherDocTest_content (n : jsstring) (c : list jsstring) :
  gatherDocTest (mkTag n (Some c)) =
  Some (mkDocTest
          (filter (fun s => negb (spec_isImportLine s)) (split LF (join c)))
          (filter spec_isImportLine (split LF (join c)))).
Proof.
  unfold gatherDocTest; simpl.
  rewrite gatherDocTest_loop, filter_kept_split; reflexivity.
Qed.

Lemma interleave_partition (f : jsstring -> bool) (l : list jsstring) :
  interleave (map f l) (filter f l) (filter (fun s => negb (f s)) l) = l.
Proof.
  induction l as [|x l IH]; simpl; [reflexivity|].
  destruct (f x); simpl; rewrite IH; reflexivity.
Qed.

Lemma filter_comm {A} (f g : A -> bool) (l : list A) :
  filter f (filter g l) = filter g (filter f l).
Proof.
  induction l as [|x l IH]; simpl; [reflexivity|].
  destruct (f x) eqn:F, (g x) eqn:G; simpl; rewrite ?F, ?G, IH; reflexivity.
Qed.

(* ================================================================== *)
(** ** Tag extractor: the claims *)

(** Every line of the content reaches one of the two arrays: the guard of
    the loop never fires, an empty line included. *)
Lemma gatherDocTest_keeps_every_line (n : jsstring) (c : list jsstring) :
  exists t, gatherDocTest (mkTag n (Some c)) = Some t /\
    forall l, In l (split LF (join c)) ->
              In l (codeArray t) \/ In l (importsArray t).
Proof.
  eexists; split; [apply gatherDocTest_content|]. simpl.
  intros l H. destruct (spec_isImportLine l) eqn:E.
  - right; apply filter_In; split; assumption.
  - left; apply filter_In; split; [assumption | rewrite E; reflexivity].
Qed.

(** C3 (the code departs from the claim): on the content ["a\n\nb"] the split
    gives the lines [a], the empty line and [b]; the guard [s !== '\n'] lets
    the empty line through and it is pushed onto [codeArray]. *)
Theorem C3_empty_line_is_kept :
  split LF (join [lit "a" ++ [LF; LF] ++ lit "b"]) = [lit "a"; []; lit "b"] /\
  gatherDocTest (mkTag (lit "example") (Some [lit "a" ++ [LF; LF] ++ lit "b"]))
  = Some (mkDocTest [lit "a"; []; lit "b"] []) /\
  In [] (codeArray (mkDocTest [lit "a"; []; lit "b"] [])).
Proof.
  split; [reflexivity|]. split; [reflexivity|]. simpl; tauto.
Qed.

(** C4: for a tag with content, the import array is made of the kept lines
    whose front-trimmed text starts with [import], the code array of the
    other kept lines, both in source order and with the lines as they were
    (untrimmed); every line of the split content is kept.  The test is a pure
    prefix match: [importantValue = 1] counts as an import line. *)
Theorem C4_import_prefix_classification (n : jsstring) (c : list jsstring) :
  exists t, gatherDocTest (mkTag n (Some c)) = Some t /\
    importsArray t
    = filter spec_isImportLine (filter kept (split LF (join c))) /\
    codeArray t
    = filter (fun s => negb (spec_isImportLine s))
             (filter kept (split LF (join c))) /\
    (forall l, In l (filter kept (split LF (join c))) ->
       (In l (importsArray t) <-> spec_isImportLine l = true) /\
       (In l (codeArray t) <-> spec_isImportLine l = false)) /\
    spec_isImportLine (lit "importantValue = 1") = true /\
    gatherDocTest (mkTag n (Some [lit "  importantValue = 1"]))
    = Some (mkDocTest [] [lit "  importantValue = 1"]).
Proof.
  eexists; split; [apply gatherDocTest_content|]. simpl.
  rewrite filter_kept_split.
  split; [reflexivity|]. split; [reflexivity|]. split.
  - intros l H; split; rewrite filter_In.
    + tauto.
    + rewrite negb_true_iff; tauto.
  - split; reflexivity.
Qed.

(** C5: for a tag with content, no line is in both arrays; putting the two
    arrays back together by original position gives the lines of the content
    in source order; and for any notion of a blank line, the lines of the two
    arrays that are not blank, put back together by original position, are
    the lines of the content that are not blank, in source order. *)
Theorem C5_disjoint_and_order_preserving
  (blank : jsstring -> bool) (n : jsstring) (c : list jsstring) :
  exists t, gatherDocTest (mkTag n (Some c)) = Some t /\
    (forall l, ~ (In l (codeArray t) /\ In l (importsArray t))) /\
    interleave (map spec_isImportLine (split LF (join c)))
               (importsArray t) (codeArray t)
    = split LF (join c) /\
    let nonblank := fun s => negb (blank s) in
    interleave
      (map spec_isImportLine (filter nonblank (split LF (join c))))
      (filter nonblank (importsArray t)) (filter nonblank (codeArray t))
    = filter nonblank (split LF (join c)).
Proof.
  eexists; split; [apply gatherDocTest_content|]. simpl. split; [|split].
  - intros l [H1 H2]. apply filter_In in H1 as [_ H1].
    apply filter_In in H2 as [_ H2]. rewrite H2 in H1; discriminate.
  - apply interleave_partition.
  - rewrite (filter_comm _ spec_isImportLine).
    rewrite (filter_comm _ (fun s => negb (spec_isImportLine s))).
    apply interleave_partition.
Qed.

(** C7 does not hold for content that is present but empty: a tag whose
    content is the empty array yields a test unit. *)
Lemma C7_empty_content_yields_unit :
  gatherDocTest (mkTag (lit "example") (Some [])) <> None /\
  gatherDocTest (mkTag (lit "example") (Some [[]])) <> None.
Proof. split; discriminate. Qed.

(** C7, amended: the tag extractor yields nothing exactly when the content of
    the tag is absent; it is a total function, so nothing is raised. *)
Theorem C7_absent_content_yields_nothing (tag : CommentBlockTag) :
  gatherDocTest tag = None <-> content tag = None.
Proof.
  unfold gatherDocTest. destruct (content tag); split; congruence.
Qed.

(* ================================================================== *)
(** ** Aggregators: helper facts *)

Lemma jsstring_eqb_sym (a b : jsstring) : jsstring_eqb a b = jsstring_eqb b a.
Proof.
  destruct (jsstring_eqb a b) eqn:E; symmetry.
  - apply jsstring_eqb_eq in E; subst; apply jsstring_eqb_refl.
  - apply jsstring_eqb_neq in E. apply jsstring_eqb_neq; congruence.
Qed.

Lemma Array_indexOf_pair (a b x : jsstring) :
  Z.geb (Array_indexOf [a; b] x) 0 = jsstring_eqb a x || jsstring_eqb b x.
Proof.
  unfold Array_indexOf; cbn [Array_indexOf_from].
  destruct (jsstring_eqb a x); [reflexivity|].
  destruct (jsstring_eqb b x); reflexivity.
Qed.

(** The tag filter of the script selects the tags named [example] or
    [doctest]. *)
Lemma tag_filter_refines (ct : CommentBlockTag) :
  Z.geb (Array_indexOf [lit "example"; lit "doctest"] (tagName ct)) 0
  = is_example ct.
Proof.
  rewrite Array_indexOf_pair. unfold is_example.
  rewrite (jsstring_eqb_sym (tagName ct) (lit "example")).
  rewrite (jsstring_eqb_sym (tagName ct) (lit "doctest")).
  reflexivity.
Qed.

Lemma filter_isDefined_all_None {A B} (f : A -> option B) (l : list A) :
  (forall x, In x l -> f x = None) -> filter_isDefined (map f l) = [].
Proof.
  induction l as [|x l IH]; simpl; intros H; [reflexivity|].
  rewrite (H x (or_introl eq_refl)); simpl. apply IH; intros; apply H; tauto.
Qed.

Lemma filter_isDefined_In {A} (l : list (option A)) (a : A) :
  In a (filter_isDefined l) <-> In (Some a) l.
Proof.
  induction l as [|[x|] l IH]; simpl; [tauto| |].
  - rewrite IH; split; intros [E|H]; try tauto; left; congruence.
  - rewrite IH; split; [tauto | intros [E|H]; [discriminate | assumption]].
Qed.

(** With the type guard spelled out: the kept elements are the defined
    ones. *)
Lemma filter_isDefined_spec {A} (l : list (option A)) :
  map Some (filter_isDefined l) = filter isDefined l.
Proof.
  induction l as [|[x|] l IH]; simpl; [reflexivity | f_equal; exact IH | exact IH].
Qed.

Lemma filter_length_existsb {A} (f : A -> bool) (l : list A) :
  Nat.eqb (length (filter f l)) 0 = negb (existsb f l).
Proof.
  induction l as [|x l IH]; simpl; [reflexivity|].
  destruct (f x); simpl; [reflexivity | exact IH].
Qed.

Lemma gatherSymbolDocTests_tags
  (sym : LinkedFormattedSymbol) (doc : Documentation)
  (tags : list CommentBlockTag) :
  documentation sym = Some doc -> customTags doc = Some tags ->
  gatherSymbolDocTests sym =
  if existsb is_example tags
  then Some (mkDocTestSymbol
               (name sym)
               (filter_isDefined (map gatherDocTest (filter is_example tags))))
  else None.
Proof.
  intros Hd Ht. unfold gatherSymbolDocTests. rewrite Hd, Ht.
  rewrite (filter_ext _ _ tag_filter_refines).
  rewrite filter_length_existsb.
  destruct (existsb is_example tags); reflexivity.
Qed.

(** In a dictionary with distinct keys, reading every key in turn gives the
    values in order. *)
Lemma get_not_in {V} (o : Dict V) (k : jsstring) :
  ~ In k (Object_keys o) -> get o k = None.
Proof.
  induction o as [|[k' v] o IH]; simpl; [reflexivity|].
  intros H. destruct (jsstring_eqb k' k) eqn:E.
  - apply jsstring_eqb_eq in E; tauto.
  - apply IH; tauto.
Qed.

Lemma get_keys_values {V} (o : Dict V) :
  NoDup (Object_keys o) ->
  map (fun k => get o k) (Object_keys o) = map snd o.
Proof.
  induction o as [|[k v] o IH]; simpl; intros H; [reflexivity|].
  inversion H as [|? ? Hk Ho]; subst.
  rewrite jsstring_eqb_refl. f_equal.
  rewrite <- (IH Ho). apply map_ext_in. intros k' Hk'.
  destruct (jsstring_eqb k k') eqn:E; [|reflexivity].
  apply jsstring_eqb_eq in E; subst; contradiction.
Qed.

Lemma get_In {V} (o : Dict V) (k : jsstring) (v : V) :
  get o k = Some v -> In (k, Some v) o.
Proof.
  induction o as [|[k' v'] o IH]; simpl; [discriminate|].
  destruct (jsstring_eqb k' k) eqn:E.
  - apply jsstring_eqb_eq in E; subst. intros ->; tauto.
  - intros H; right; exact (IH H).
Qed.

Lemma get_In_keys {V} (o : Dict V) (k : jsstring) (v : V) :
  get o k = Some v -> In k (Object_keys o).
Proof.
  intros H. apply get_In in H. apply (in_map fst) in H; exact H.
Qed.

Lemma without_undefined_keys_NoDup {V} (o : Dict V) :
  NoDup (Object_keys o) -> NoDup (Object_keys (without_undefined o)).
Proof.
  induction o as [|[k v] o IH]; simpl; intros H; [constructor|].
  inversion H as [|? ? Hk Ho]; subst.
  destruct (isDefined v); simpl; [constructor|]; auto.
  intros Hin. apply Hk. unfold Object_keys, without_undefined in *.
  apply in_map_iff in Hin as [[k' v'] [E Hin]]; simpl in E; subst.
  apply filter_In in Hin as [Hin _]. apply (in_map fst) in Hin; exact Hin.
Qed.

Lemma without_undefined_values {V} (o : Dict V) :
  filter_isDefined (map snd (without_undefined o))
  = filter_isDefined (map snd o).
Proof.
  induction o as [|[k [v|]] o IH]; simpl; [reflexivity | f_equal; exact IH | exact IH].
Qed.

(** The defined values of a dictionary, as the script collects them. *)
Lemma defined_values_without_undefined {V} (o : Dict V) :
  NoDup (Object_keys o) ->
  filter_isDefined (map (fun k => get (without_undefined o) k)
                        (Object_keys (without_undefined o)))
  = filter_isDefined (map (fun k => get o k) (Object_keys o)).
Proof.
  intros H.
  rewrite (get_keys_values _ (without_undefined_keys_NoDup _ H)).
  rewrite (get_keys_values _ H). apply without_undefined_values.
Qed.

Lemma distinct_NoDup (ks : list jsstring) : distinct ks = true -> NoDup ks.
Proof.
  induction ks as [|k r IH]; simpl; intros H; [constructor|].
  apply andb_true_iff in H as [H1 H2]. constructor; [|exact (IH H2)].
  intros Hin. apply negb_true_iff in H1.
  assert (existsb (jsstring_eqb k) r = true) as E; [|congruence].
  apply existsb_exists. exists k; split; [exact Hin | apply jsstring_eqb_refl].
Qed.

Lemma gatherFileDocTests_without_undefined (file : LinkedFormattedSourceFile) :
  wf_file file = true ->
  gatherFileDocTests (file_without_undefined file) = gatherFileDocTests file.
Proof.
  unfold wf_file, export_table, gatherFileDocTests, file_without_undefined.
  destruct (symbol file) as [fileSym|]; simpl; [|reflexivity].
  destruct (exports fileSym) as [e|]; simpl; [|reflexivity].
  intros H. apply distinct_NoDup in H.
  rewrite (defined_values_without_undefined e H); reflexivity.
Qed.

Lemma filter_isDefined_map_ext {A B} (f g : A -> option B) (l : list A) :
  (forall x, In x l -> f x = g x) ->
  filter_isDefined (map f l) = filter_isDefined (map g l).
Proof.
  intros H. rewrite (map_ext_in f g l H); reflexivity.
Qed.

Lemma filter_isDefined_option_map {A B} (f : A -> B) (l : list (option A)) :
  filter_isDefined (map (option_map f) l) = map f (filter_isDefined l).
Proof.
  induction l as [|[x|] l IH]; simpl; [reflexivity | f_equal; exact IH | exact IH].
Qed.

(* ================================================================== *)
(** ** Aggregators: the claims *)

(** C1 does not hold: for a file without a symbol, and for a file whose
    symbol has no export table, the file aggregator returns nothing. *)
Lemma C1_no_export_table_yields_nothing :
  gatherFileDocTests (mkSourceFile (lit "m") None) = None /\
  gatherFileDocTests
    (mkSourceFile (lit "m") (Some (mkSymbol (lit "m") None None))) = None /\
  gatherFileDocTests (mkSourceFile (lit "m") None)
  <> Some (mkDocTestFile (lit "m") []).
Proof. repeat split; discriminate. Qed.

(** C1, amended: the file aggregator returns nothing exactly when the file
    has no symbol or its symbol has no export table; every value it does
    return carries the module name of the file and the symbol tests of the
    defined entries of the export table. *)
Theorem C1_file_tests_iff_export_table (file : LinkedFormattedSourceFile) :
  (gatherFileDocTests file = None <-> export_table file = None) /\
  (forall r, gatherFileDocTests file = Some r ->
     dtf_name r = moduleName file /\
     exists e, export_table file = Some e /\
       symbols r =
       filter_isDefined
         (map gatherSymbolDocTests
              (filter_isDefined (map (fun k => get e k) (Object_keys e))))).
Proof.
  unfold gatherFileDocTests, export_table.
  destruct (symbol file) as [fileSym|]; [|split; [tauto | discriminate]].
  destruct (exports fileSym) as [e|]; [|split; [tauto | discriminate]].
  split; [split; discriminate|].
  intros r E; injection E as <-; simpl. split; [reflexivity|].
  exists e; split; reflexivity.
Qed.

(** C2 does not hold: a symbol whose only [example] tag has no content is
    returned with an empty test sequence, not dropped. *)
Lemma C2_contentless_tags_yield_empty_tests :
  gatherSymbolDocTests
    (mkSymbol (lit "add")
              (Some (mkDocumentation (Some [mkTag (lit "example") None])))
              None)
  = Some (mkDocTestSymbol (lit "add") []) /\
  gatherSymbolDocTests
    (mkSymbol (lit "add")
              (Some (mkDocumentation (Some [mkTag (lit "example") None])))
              None)
  <> None.
Proof. split; [reflexivity | discriminate]. Qed.

(** C2, amended: the symbol aggregator returns nothing exactly when the
    symbol has no documentation, no custom tags or no tag named [example] or
    [doctest]; otherwise it returns the name of the symbol with the test
    units of those tags, and when none of them yields a unit that sequence is
    empty. *)
Theorem C2_symbol_tests_iff_example_tag (sym : LinkedFormattedSymbol) :
  (gatherSymbolDocTests sym = None <-> has_example_tag sym = false) /\
  (forall doc tags,
     documentation sym = Some doc -> customTags doc = Some tags ->
     existsb is_example tags = true ->
     gatherSymbolDocTests sym
     = Some (mkDocTestSymbol
               (name sym)
               (filter_isDefined (map gatherDocTest (filter is_example tags))))
     /\ ((forall ct, In ct tags -> is_example ct = true ->
                     gatherDocTest ct = None) ->
         gatherSymbolDocTests sym = Some (mkDocTestSymbol (name sym) []))).
Proof.
  split.
  - unfold has_example_tag.
    destruct (documentation sym) as [doc|] eqn:Hd;
      [|unfold gatherSymbolDocTests; rewrite Hd; tauto].
    destruct (customTags doc) as [tags|] eqn:Ht;
      [|unfold gatherSymbolDocTests; rewrite Hd, Ht; tauto].
    rewrite (gatherSymbolDocTests_tags sym Hd Ht).
    destruct (existsb is_example tags); split; congruence.
  - intros doc tags Hd Ht Hex.
    rewrite (gatherSymbolDocTests_tags sym Hd Ht), Hex.
    split; [reflexivity|]. intros Hnone. do 2 f_equal.
    apply filter_isDefined_all_None. intros ct Hct.
    apply filter_In in Hct as [Hin Hex']. exact (Hnone ct Hin Hex').
Qed.

(** C8: a file of the source-file mapping that has an export table, none of
    whose symbols yields symbol tests, gives a [DocTestFile] with its module
    name and no symbols, and the program aggregator lists it. *)
Theorem C8_empty_file_is_listed
  (linked : LinkedFormattedOutputData) (k : jsstring)
  (file : LinkedFormattedSourceFile) (fileSym : LinkedFormattedSymbol)
  (fileExports : Dict LinkedFormattedSymbol) :
  get (sourceFiles linked) k = Some file ->
  symbol file = Some fileSym ->
  exports fileSym = Some fileExports ->
  (forall expName sym,
     get fileExports expName = Some sym -> gatherSymbolDocTests sym = None) ->
  gatherFileDocTests file = Some (mkDocTestFile (moduleName file) []) /\
  In (mkDocTestFile (moduleName file) []) (gatherProgramDocTests linked).
Proof.
  intros Hk Hs He Hnone.
  assert (gatherFileDocTests file = Some (mkDocTestFile (moduleName file) []))
    as HF.
  { unfold gatherFileDocTests. rewrite Hs, He. do 2 f_equal.
    apply filter_isDefined_all_None. intros sym Hin.
    apply filter_isDefined_In, in_map_iff in Hin as [expName [Hg _]].
    exact (Hnone expName sym Hg). }
  split; [exact HF|].
  unfold gatherProgramDocTests. apply filter_isDefined_In.
  rewrite <- HF. apply in_map. apply filter_isDefined_In.
  rewrite <- Hk. apply (in_map (fun k => get (sourceFiles linked) k)).
  exact (get_In_keys _ _ Hk).
Qed.

(** C10: on a linked program whose objects have distinct keys, the
    aggregators are total functions and give the same result as on the
    program with every [undefined] entry of the source-file mapping and of the
    export tables taken out. *)
Theorem C10_undefined_entries_are_skipped
  (linked : LinkedFormattedOutputData) :
  wf_linked linked = true ->
  gatherProgramDocTests (linked_without_undefined linked)
  = gatherProgramDocTests linked /\
  (forall k file, In (k, Some file) (sourceFiles linked) ->
     gatherFileDocTests (file_without_undefined file)
     = gatherFileDocTests file) /\
  gatherProgramDocTests (mkLinked (without_undefined (sourceFiles linked)))
  = gatherProgramDocTests linked.
Proof.
  intros H. apply andb_true_iff in H as [Hd Hf].
  rewrite forallb_forall in Hf.
  assert (forall k file, In (k, Some file) (sourceFiles linked) ->
            gatherFileDocTests (file_without_undefined file)
            = gatherFileDocTests file) as Hfile.
  { intros k file Hin. apply gatherFileDocTests_without_undefined.
    exact (Hf _ Hin). }
  apply distinct_NoDup in Hd.
  split; [|split; [exact Hfile|]].
  - unfold gatherProgramDocTests, linked_without_undefined; simpl.
    set (sf := sourceFiles linked) in *.
    assert (Object_keys
              (map (fun kv : jsstring * option LinkedFormattedSourceFile =>
                      (fst kv, option_map file_without_undefined (snd kv)))
                   (without_undefined sf))
            = Object_keys (without_undefined sf)) as Hkeys.
    { unfold Object_keys. rewrite map_map; reflexivity. }
    pose proof (without_undefined_keys_NoDup sf Hd) as Hd'.
    rewrite get_keys_values by (rewrite Hkeys; exact Hd').
    rewrite map_map; simpl.
    rewrite <- (map_map snd (option_map file_without_undefined)).
    rewrite filter_isDefined_option_map, map_map.
    rewrite without_undefined_values.
    rewrite (get_keys_values sf Hd).
    apply filter_isDefined_map_ext. intros file Hin.
    apply filter_isDefined_In, in_map_iff in Hin as [[k v] [E Hin]].
    simpl in E; subst v. exact (Hfile k file Hin).
  - unfold gatherProgramDocTests; simpl.
    rewrite (defined_values_without_undefined _ Hd); reflexivity.
Qed.

(* ================================================================== *)
(** ** Promises: helper facts *)

Lemma Promise_all_rejected {A} (ps : list (Promise A)) (e : JsError) :
  outcome (Promise_all ps) = Rejected e ->
  exists p, In p ps /\ outcome p = Rejected e.
Proof.
  induction ps as [|p r IH]; simpl; [discriminate|].
  destruct (outcome p) as [a|e0] eqn:Hp;
    destruct (outcome (Promise_all r)) as [vs|e1] eqn:Hr; simpl.
  - discriminate.
  - rewrite Hr. intros E. destruct (IH E) as [q [Hq Eq]].
    exists q; split; [right; exact Hq | exact Eq].
  - intros E; injection E as <-. exists p; split; [left; reflexivity | exact Hp].
  - destruct (Nat.leb (settledAt p) (settledAt (Promise_all r))); simpl.
    + intros E; injection E as <-.
      exists p; split; [left; reflexivity | exact Hp].
    + rewrite Hr. intros E. destruct (IH E) as [q [Hq Eq]].
      exists q; split; [right; exact Hq | exact Eq].
Qed.

Lemma Promise_all_fulfilled {A} (ps : list (Promise A)) (vs : list A) :
  outcome (Promise_all ps) = Fulfilled vs ->
  forall p, In p ps -> exists a, outcome p = Fulfilled a.
Proof.
  revert vs; induction ps as [|p r IH]; simpl; intros vs E q Hq; [tauto|].
  destruct (outcome p) as [a|e0] eqn:Hp;
    destruct (outcome (Promise_all r)) as [ws|e1] eqn:Hr; simpl in E.
  - destruct Hq as [<-|Hq]; [exists a; exact Hp | exact (IH ws eq_refl q Hq)].
  - rewrite Hr in E; discriminate.
  - discriminate.
  - destruct (Nat.leb (settledAt p) (settledAt (Promise_all r))); simpl in E;
      [discriminate | rewrite Hr in E; discriminate].
Qed.

Lemma Promise_all_of_fulfilled {A} (ps : list (Promise A)) :
  (forall p, In p ps -> exists a, outcome p = Fulfilled a) ->
  exists vs, outcome (Promise_all ps) = Fulfilled vs.
Proof.
  induction ps as [|p r IH]; simpl; intros H; [eexists; reflexivity|].
  destruct (H p (or_introl eq_refl)) as [a Hp].
  destruct IH as [vs Hr]; [intros q Hq; apply H; right; exact Hq|].
  rewrite Hp, Hr; simpl. eexists; reflexivity.
Qed.

Lemma runTest_calls_app (a b : list event) :
  runTest_calls (a ++ b) = runTest_calls a ++ runTest_calls b.
Proof.
  induction a as [|ev a IH]; simpl; [reflexivity|].
  destruct (act ev); simpl; rewrite IH; reflexivity.
Qed.

Lemma console_lines_app (a b : list event) :
  console_lines (a ++ b) = console_lines a ++ console_lines b.
Proof.
  induction a as [|ev a IH]; simpl; [reflexivity|].
  destruct (act ev); simpl; rewrite IH; reflexivity.
Qed.

(** The text of an error contains its message. *)
Lemma Error_toString_message (e : JsError) :
  is_infix (err_message e) (Error_toString e).
Proof.
  unfold Error_toString, is_infix.
  destruct (err_name e) as [|c nm]; [exists [], []; rewrite app_nil_r; reflexivity|].
  destruct (err_message e) as [|d msg]; [exists [], (c :: nm); reflexivity|].
  exists ((c :: nm) ++ lit ": "), []. rewrite app_nil_r, <- app_assoc; reflexivity.
Qed.

Lemma line_fail_message (symName : jsstring) (e : JsError) :
  is_infix (err_message e) (line_fail symName e).
Proof.
  destruct (Error_toString_message e) as [a [b E]].
  unfold line_fail. rewrite E.
  exists (lit "    " ++ [10060%N] ++ lit " " ++ symName ++ lit ": " ++ a), b.
  rewrite <- !app_assoc; reflexivity.
Qed.

Lemma line_fail_symbol (symName : jsstring) (e : JsError) :
  is_infix symName (line_fail symName e).
Proof.
  exists (lit "    " ++ [10060%N] ++ lit " "), (lit ": " ++ Error_toString e).
  unfold line_fail. rewrite <- !app_assoc; reflexivity.
Qed.

Lemma line_fail_not_pass (symName symName' : jsstring) (e : JsError) :
  line_fail symName e <> line_pass symName'.
Proof. unfold line_fail, line_pass; simpl; discriminate. Qed.

(* ================================================================== *)
(** ** Execution reporter: what a run leaves behind *)

Section ReporterFacts.

Variable runTest : nat -> DocTest -> Reply unit.
Variable JSON_stringify : DocTest -> jsstring.

(** Calling the callback of [tests.map] on one test. *)
Lemma async_report_test (t : DocTest) (w : World) :
  async (report_test runTest JSON_stringify t) w
  = (Fulfilled (mkPromise (reply (runTest (runs w) t))
                          (now w + S (delay (runTest (runs w) t)))),
     mkWorld (now w)
             (trace w
              ++ [mkEvent (now w)
                          (console_log (line_invoking JSON_stringify t));
                  mkEvent (now w) (call_runTest t)])
             (S (runs w))).
Proof.
  destruct w as [n tr k].
  unfold async, report_test, bind, emit, invoke_runTest, call_async, bind,
    emit, await; simpl.
  rewrite Nat.max_r by lia. rewrite <- app_assoc; reflexivity.
Qed.

(** Launching the tests of a symbol: all of them are started within the
    current tick, whatever the runner answers. *)
Lemma launch_tests (ts : list DocTest) (w : World) :
  Array_map (fun t => async (report_test runTest JSON_stringify t)) ts w
  = (Fulfilled (test_promises runTest (now w) (runs w) ts),
     mkWorld (now w)
             (trace w ++ test_events JSON_stringify (now w) ts)
             (runs w + length ts)).
Proof.
  revert w; induction ts as [|t r IH]; intros w; simpl.
  - unfold ret. rewrite app_nil_r, Nat.add_0_r. destruct w; reflexivity.
  - unfold bind at 1. rewrite async_report_test.
    unfold bind at 1. rewrite IH; simpl. unfold ret.
    rewrite <- !app_assoc; simpl.
    rewrite (Nat.add_succ_r (runs w) (length r)); reflexivity.
Qed.

Lemma test_events_calls (t0 : nat) (ts : list DocTest) :
  runTest_calls (test_events JSON_stringify t0 ts) = ts.
Proof. induction ts as [|t r IH]; simpl; [|rewrite IH]; reflexivity. Qed.

Lemma test_events_lines (t0 : nat) (ts : list DocTest) :
  console_lines (test_events JSON_stringify t0 ts)
  = map (line_invoking JSON_stringify) ts.
Proof. induction ts as [|t r IH]; simpl; [|rewrite IH]; reflexivity. Qed.

Lemma test_promises_In (t0 k : nat) (ts : list DocTest) (p : Promise unit) :
  In p (test_promises runTest t0 k ts) ->
  exists i t, nth_error ts i = Some t /\
              outcome p = reply (runTest (k + i) t).
Proof.
  revert k; induction ts as [|t r IH]; simpl; intros k; [tauto|].
  intros [<-|H].
  - exists 0, t; rewrite Nat.add_0_r; split; reflexivity.
  - destruct (IH _ H) as [i [t' [Hn Ho]]].
    exists (S i), t'; rewrite Nat.add_succ_r; split; assumption.
Qed.

Lemma test_promises_nth (t0 k : nat) (ts : list DocTest) (i : nat)
      (t : DocTest) :
  nth_error ts i = Some t ->
  exists p, In p (test_promises runTest t0 k ts) /\
            outcome p = reply (runTest (k + i) t).
Proof.
  revert k i; induction ts as [|t' r IH]; intros k [|i]; simpl;
    try discriminate.
  - intros E; injection E as ->. eexists; split; [left; reflexivity|].
    rewrite Nat.add_0_r; reflexivity.
  - intros H. destruct (IH (S k) i H) as [p [Hp Ho]].
    exists p; split; [right; exact Hp|].
    rewrite Nat.add_succ_r; exact Ho.
Qed.

(** The end of the callback of [symbols.map]: [.then] prints the success
    line, [.catch] the failure line, and the promise that comes out is
    fulfilled either way. *)
Lemma settle_symbol (symName : jsstring) (all : Promise (list unit))
      (w : World) :
  (p1 <- then_ all (fun _ => emit (console_log (line_pass symName))) ;;
   p2 <- catch_ p1
                (fun err => emit (console_log (line_fail symName err))) ;;
   await p2) w
  = (Fulfilled tt,
     mkWorld (Nat.max (now w) (settledAt all))
             (trace w
              ++ [mkEvent (Nat.max (now w) (settledAt all))
                          (console_log (verdict_line symName all))])
             (runs w)).
Proof.
  destruct w as [n tr k], all as [[vs|e] t].
  - unfold verdict_line, then_, catch_, async, bind, try_catch, await, emit;
      simpl.
    rewrite !Nat.max_assoc, !Nat.max_id; reflexivity.
  - unfold verdict_line, then_, catch_, async, bind, try_catch, await, emit;
      simpl.
    rewrite !Nat.max_assoc, !Nat.max_id; reflexivity.
Qed.

(** The run of the callback of [symbols.map] on a symbol with tests. *)
Lemma report_symbol_run (s : DocTestSymbol) (w : World) :
  tests s <> [] ->
  let all := Promise_all (test_promises runTest (now w) (runs w) (tests s)) in
  let tick := Nat.max (now w) (settledAt all) in
  report_symbol runTest JSON_stringify s w
  = (Fulfilled tt,
     mkWorld tick
             (trace w ++ test_events JSON_stringify (now w) (tests s)
              ++ [mkEvent tick (console_log (verdict_line (dts_name s) all))])
             (runs w + length (tests s))).
Proof.
  intros Hne all tick. unfold report_symbol.
  assert (Nat.eqb (length (tests s)) 0 = false) as ->
    by (destruct (tests s); [contradiction | reflexivity]).
  unfold bind at 1. rewrite launch_tests. fold all.
  rewrite settle_symbol; simpl. fold tick.
  rewrite <- app_assoc; reflexivity.
Qed.

(** The run of the callback of [symbols.map] on any symbol: it never
    rejects, and it hands each test of the symbol to the runner once. *)
Lemma report_symbol_contained (s : DocTestSymbol) (w : World) :
  exists new w',
    report_symbol runTest JSON_stringify s w = (Fulfilled tt, w') /\
    trace w' = trace w ++ new /\
    runTest_calls new = tests s.
Proof.
  destruct (tests s) as [|t0 ts] eqn:Hts.
  - unfold report_symbol. rewrite Hts; simpl. unfold emit.
    eexists _, _; split; [reflexivity|]. split; reflexivity.
  - assert (tests s <> []) as Hne by (rewrite Hts; discriminate).
    rewrite (report_symbol_run s w Hne). rewrite Hts.
    eexists _, _; split; [reflexivity|]. split; [reflexivity|].
    rewrite runTest_calls_app, test_events_calls; simpl.
    rewrite app_nil_r; reflexivity.
Qed.

(** Calling an [async] callback on every element of an array, when the
    callback never rejects: every promise is fulfilled, and the runner has
    been handed what each call hands it, in array order. *)
Lemma Array_map_async_contained {A} (body : A -> Async unit)
      (g : A -> list DocTest) :
  (forall x w, exists new w',
      body x w = (Fulfilled tt, w') /\
      trace w' = trace w ++ new /\ runTest_calls new = g x) ->
  forall xs w, exists ps new w',
    Array_map (fun x => async (body x)) xs w = (Fulfilled ps, w') /\
    (forall p, In p ps -> outcome p = Fulfilled tt) /\
    trace w' = trace w ++ new /\
    runTest_calls new = flat_map g xs.
Proof.
  intros Hbody. induction xs as [|x xs IH]; intros w; simpl.
  - exists [], [], w; unfold ret; rewrite app_nil_r.
    repeat split; simpl; tauto.
  - destruct (Hbody x w) as [new1 [w1 [E1 [T1 C1]]]].
    destruct (IH (mkWorld (now w) (trace w1) (runs w1)))
      as [ps [new2 [w2 [E2 [F2 [T2 C2]]]]]].
    exists (mkPromise (Fulfilled tt) (now w1) :: ps), (new1 ++ new2), w2.
    unfold bind at 1, async at 1. rewrite E1.
    unfold bind at 1. rewrite E2. unfold ret. split; [reflexivity|].
    split; [|split].
    + intros p [<-|Hp]; [reflexivity | exact (F2 p Hp)].
    + rewrite T2; simpl. rewrite T1, app_assoc; reflexivity.
    + rewrite runTest_calls_app, C1, C2; reflexivity.
Qed.

Lemma await_all_fulfilled (ps : list (Promise unit)) (w : World) :
  (forall p, In p ps -> outcome p = Fulfilled tt) ->
  exists w', (_ <- await (Promise_all ps) ;; ret tt) w = (Fulfilled tt, w')
             /\ trace w' = trace w.
Proof.
  intros H.
  destruct (Promise_all_of_fulfilled ps) as [vs Hvs];
    [intros p Hp; exists tt; exact (H p Hp)|].
  unfold bind, await, ret. rewrite Hvs.
  eexists; split; reflexivity.
Qed.

(** The callback of [docTests.map] never rejects, and hands every test of
    every symbol of the file to the runner. *)
Lemma report_file_contained (file : DocTestFile) (w : World) :
  exists new w',
    report_file runTest JSON_stringify file w = (Fulfilled tt, w') /\
    trace w' = trace w ++ new /\
    runTest_calls new = flat_map tests (symbols file).
Proof.
  unfold report_file. destruct (symbols file) as [|s0 ss] eqn:Hs.
  - simpl. unfold emit. eexists _, _; split; [reflexivity|].
    split; reflexivity.
  - change (Nat.eqb (length (s0 :: ss)) 0) with false; cbv iota.
    unfold bind at 1, emit at 1.
    destruct (Array_map_async_contained
                (report_symbol runTest JSON_stringify) tests
                report_symbol_contained (s0 :: ss)
                (mkWorld (now w)
                         (trace w
                          ++ [mkEvent (now w)
                                      (console_log
                                         (line_file (dtf_name file)))])
                         (runs w)))
      as [ps [new [w1 [E1 [F1 [T1 C1]]]]]].
    unfold bind at 1. rewrite E1.
    destruct (await_all_fulfilled ps w1 F1) as [w2 [E2 T2]].
    rewrite E2.
    eexists _, w2; split; [reflexivity|]. split.
    + rewrite T2, T1; simpl. rewrite <- app_assoc; reflexivity.
    + rewrite runTest_calls_app; simpl. exact C1.
Qed.

(** The report of the whole program never rejects, and hands every test
    of the program to the runner. *)
Lemma report_program_contained (docTests : list DocTestFile) (w : World) :
  exists new w',
    report_program runTest JSON_stringify docTests w = (Fulfilled tt, w') /\
    trace w' = trace w ++ new /\
    runTest_calls new = all_tests docTests.
Proof.
  unfold report_program.
  destruct (Array_map_async_contained
              (report_file runTest JSON_stringify)
              (fun file => flat_map tests (symbols file))
              report_file_contained docTests w)
    as [ps [new [w1 [E1 [F1 [T1 C1]]]]]].
  unfold bind at 1. rewrite E1.
  destruct (await_all_fulfilled ps w1 F1) as [w2 [E2 T2]].
  rewrite E2. exists new, w2; split; [reflexivity|].
  split; [rewrite T2; exact T1 | exact C1].
Qed.

Lemma line_invoking_not_pass (t : DocTest) (symName : jsstring) :
  line_invoking JSON_stringify t <> line_pass symName.
Proof. unfold line_invoking, line_pass; simpl; discriminate. Qed.

(** C6: the callback of [symbols.map], run on a symbol with tests in any
    state of the run, hands each test of the symbol to the runner once, in
    order, and is fulfilled.  When every one of these calls is fulfilled,
    the lines it prints are the invoking lines and then the success line.
    When one of them is rejected, they are the invoking lines and then the
    failure line of one rejected call, which contains the name of the
    symbol and the message of that error, and the success line is not
    printed.  The callback of [docTests.map] and the report of the whole
    program are fulfilled too, and hand every test of every symbol to the
    runner, whatever the runner answers. *)
Theorem C6_runner_errors_reported_and_contained :
  (forall (s : DocTestSymbol) (w : World),
      tests s <> [] ->
      exists new w',
        report_symbol runTest JSON_stringify s w = (Fulfilled tt, w') /\
        trace w' = trace w ++ new /\
        runTest_calls new = tests s /\
        ((forall i t, nth_error (tests s) i = Some t ->
                      reply (runTest (runs w + i) t) = Fulfilled tt) ->
         console_lines new
         = map (line_invoking JSON_stringify) (tests s)
           ++ [line_pass (dts_name s)]) /\
        ((exists i t e, nth_error (tests s) i = Some t /\
                        reply (runTest (runs w + i) t) = Rejected e) ->
         exists i t e,
           nth_error (tests s) i = Some t /\
           reply (runTest (runs w + i) t) = Rejected e /\
           console_lines new
           = map (line_invoking JSON_stringify) (tests s)
             ++ [line_fail (dts_name s) e] /\
           is_infix (dts_name s) (line_fail (dts_name s) e) /\
           is_infix (err_message e) (line_fail (dts_name s) e) /\
           ~ In (line_pass (dts_name s)) (console_lines new))) /\
  (forall (file : DocTestFile) (w : World),
      exists new w',
        report_file runTest JSON_stringify file w = (Fulfilled tt, w') /\
        trace w' = trace w ++ new /\
        runTest_calls new = flat_map tests (symbols file)) /\
  (forall (docTests : list DocTestFile) (w : World),
      exists new w',
        report_program runTest JSON_stringify docTests w
        = (Fulfilled tt, w') /\
        trace w' = trace w ++ new /\
        runTest_calls new = all_tests docTests).
Proof.
  split; [|split; [exact report_file_contained
                  | exact report_program_contained]].
  intros s w Hne.
  pose proof (report_symbol_run s w Hne) as Hrun; cbv zeta in Hrun.
  set (all := Promise_all
                (test_promises runTest (now w) (runs w) (tests s))) in *.
  eexists _, _; split; [exact Hrun|]. split; [reflexivity|]. simpl.
  rewrite runTest_calls_app, console_lines_app, test_events_calls,
    test_events_lines; simpl.
  split; [apply app_nil_r|]. split.
  - intros Hall. unfold verdict_line.
    destruct (outcome all) as [vs|e] eqn:Ho; [reflexivity|].
    destruct (Promise_all_rejected _ Ho) as [p [Hp Hrej]].
    destruct (test_promises_In _ _ _ _ Hp) as [i [t [Hn Hout]]].
    rewrite (Hall i t Hn), Hrej in Hout; discriminate.
  - intros [i [t [e [Hn Hrej]]]]. unfold verdict_line.
    destruct (outcome all) as [vs|e'] eqn:Ho.
    + destruct (test_promises_nth (now w) (runs w) _ _ Hn) as [p [Hp Hout]].
      destruct (Promise_all_fulfilled _ Ho p Hp) as [a Ha].
      rewrite Hout, Hrej in Ha; discriminate.
    + destruct (Promise_all_rejected _ Ho) as [p [Hp Hrej']].
      destruct (test_promises_In _ _ _ _ Hp) as [i' [t' [Hn' Hout']]].
      exists i', t', e'. split; [exact Hn'|].
      split; [rewrite <- Hout'; exact Hrej'|].
      split; [reflexivity|].
      split; [apply line_fail_symbol|].
      split; [apply line_fail_message|].
      intros Hin. apply in_app_or in Hin as [Hin|[Hin|[]]].
      * apply in_map_iff in Hin as [t1 [E _]].
        exact (@line_invoking_not_pass _ _ E).
      * exact (@line_fail_not_pass _ _ _ Hin).
Qed.

End ReporterFacts.

(* ================================================================== *)
(** ** The entry operation: the claims *)

Section EntryFacts.

Variables Program PathNormalizer WalkerOutput FormatterData : Type.
Variable createProgramFromTsConfig : jsstring -> Reply Program.
Variable findPkgJson : jsstring -> Reply (option Pkg).
Variable createReverseResolver : PkgInfo -> settled PathNormalizer.
Variable walkProgram : Program -> PathNormalizer -> settled WalkerOutput.
Variable formatWalkerOutput : WalkerOutput -> settled FormatterData.
Variable linkFormatterData :
  FormatterData -> settled LinkedFormattedOutputData.
Variable runTest : nat -> DocTest -> Reply unit.
Variable JSON_stringify : DocTest -> jsstring.

(** When the package is found and the collaborators answer, the entry
    operation goes on to report the tests gathered from the linked
    program. *)
Lemma doctestProgram_reaches_report
      (pth : jsstring) (prog : Program) (pkg : Pkg) (pn : PathNormalizer)
      (wo : WalkerOutput) (fd : FormatterData)
      (linked : LinkedFormattedOutputData) (w : World) :
  reply (createProgramFromTsConfig pth) = Fulfilled prog ->
  reply (findPkgJson pth) = Fulfilled (Some pkg) ->
  createReverseResolver
    (mkPkgInfo (pkg_path pkg) (pkg_name (contents pkg))
               (or_else (or_else (pkg_doc_main (contents pkg))
                                 (pkg_main (contents pkg)))
                        (Some (pkg_path pkg)))) = Fulfilled pn ->
  walkProgram prog pn = Fulfilled wo ->
  formatWalkerOutput wo = Fulfilled fd ->
  linkFormatterData fd = Fulfilled linked ->
  exists w1,
    doctestProgram createProgramFromTsConfig findPkgJson
                   createReverseResolver walkProgram formatWalkerOutput
                   linkFormatterData runTest JSON_stringify pth w
    = report_program runTest JSON_stringify
                     (gatherProgramDocTests linked) w1 /\
    map act (trace w1)
    = map act (trace w)
      ++ [call_createProgramFromTsConfig pth; call_findPkgJson pth;
          call_createReverseResolver; call_walkProgram;
          call_formatWalkerOutput; call_linkFormatterData] /\
    runs w1 = runs w.
Proof.
  intros H1 H2 H3 H4 H5 H6. destruct w as [n tr k].
  unfold doctestProgram, call, call_async, bind, emit, await; simpl.
  rewrite H1, H2; simpl. rewrite H3, H4, H5, H6.
  eexists; split; [reflexivity|]. simpl.
  rewrite <- !app_assoc, map_app; simpl. split; reflexivity.
Qed.

(** C9: when [findPkgJson] answers with nothing for the path, the entry
    operation is rejected; nothing is written to the console and the
    runner is never called.  When the program could be created, the error
    is the one about the missing [package.json] and the only collaborators
    called are the program builder and the package locator: the walker,
    the formatter and the linker are not called, so there is no linked
    program to gather tests from. *)
Theorem C9_missing_package_aborts (pth : jsstring) (w : World) :
  reply (findPkgJson pth) = Fulfilled None ->
  exists e new w',
    doctestProgram createProgramFromTsConfig findPkgJson
                   createReverseResolver walkProgram formatWalkerOutput
                   linkFormatterData runTest JSON_stringify pth w
    = (Rejected e, w') /\
    trace w' = trace w ++ new /\
    runs w' = runs w /\
    console_lines new = [] /\
    runTest_calls new = [] /\
    ((exists prog,
         reply (createProgramFromTsConfig pth) = Fulfilled prog /\
         e = new_Error (msg_no_pkg pth) /\
         map act new
         = [call_createProgramFromTsConfig pth; call_findPkgJson pth])
     \/ (reply (createProgramFromTsConfig pth) = Rejected e /\
         map act new = [call_createProgramFromTsConfig pth])).
Proof.
  intros H. destruct w as [n tr k].
  unfold doctestProgram, call_async, bind, emit, await, throw; simpl.
  destruct (reply (createProgramFromTsConfig pth)) as [prog|e0] eqn:Hc;
    simpl.
  - rewrite H. eexists _, _, _; split; [reflexivity|]; simpl.
    split; [rewrite <- app_assoc; reflexivity|].
    split; [reflexivity|]. split; [reflexivity|]. split; [reflexivity|].
    left. exists prog. repeat split; reflexivity.
  - eexists _, _, _; split; [reflexivity|]; simpl.
    split; [reflexivity|].
    split; [reflexivity|]. split; [reflexivity|]. split; [reflexivity|].
    right. split; reflexivity.
Qed.

End EntryFacts.

(* ================================================================== *)
(** ** Worked examples *)

(** The import line of the sample block goes to the imports, the call to the
    code, and the symbol aggregator returns the symbol with this one unit. *)
Example sample_add_tests :
  gatherSymbolDocTests sample_add
  = Some (mkDocTestSymbol
            (lit "add")
            [mkDocTest [lit "add(1, 2); // 3"]
                       [lit "import { add } from './math';"]]).
Proof. reflexivity. Qed.

Example sample_program_tests :
  map dtf_name (gatherProgramDocTests sample_linked) = [lit "math"; lit "util"]
  /\ map (fun f => length (symbols f)) (gatherProgramDocTests sample_linked)
     = [1; 0].
Proof. split; reflexivity. Qed.

(** T1 is fulfilled, T2 is rejected: both are handed to the runner before
    anything settles, the failure line carries the text of T2's error, and
    the promise of the symbol is fulfilled. *)
Example sample_T1_T2_run :
  run (report_symbol sample_runTest sample_stringify sample_symbol)
  = (Fulfilled tt,
     mkWorld 1
       [mkEvent 0 (console_log (line_invoking sample_stringify sample_T1));
        mkEvent 0 (call_runTest sample_T1);
        mkEvent 0 (console_log (line_invoking sample_stringify sample_T2));
        mkEvent 0 (call_runTest sample_T2);
        mkEvent 1 (console_log
                     (lit "    " ++ [10060%N] ++ lit " add: Error: boom"))]
       2).
Proof. vm_compute. reflexivity. Qed.

(** A whole run on the sample program: the file [math] is reported with its
    symbol, the file [util] has no symbol with doctests; the success line of
    [add] comes once its test has settled. *)
Example sample_whole_run :
  let '(r, w) :=
    run (doctestProgram sample_createProgram sample_findPkgJson
                        sample_sync sample_walk sample_sync sample_link
                        (fun _ _ => mkReply (Fulfilled tt) 0)
                        sample_stringify (lit "/p")) in
  r = Fulfilled tt /\
  runTest_calls (trace w)
  = [mkDocTest [lit "add(1, 2); // 3"] [lit "import { add } from './math';"]]
  /\
  console_lines (chronological (trace w))
  = [line_file (lit "math");
     line_invoking sample_stringify
       (mkDocTest [lit "add(1, 2); // 3"]
                  [lit "import { add } from './math';"]);
     line_file_empty (lit "util");
     line_pass (lit "add")].
Proof. vm_compute. repeat split. Qed.

(** The amended C2 at the symbol whose only [@example] block has no
    content. *)
Lemma C2_witness :
  existsb is_example [mkTag (lit "example") None] = true /\
  (forall ct, In ct [mkTag (lit "example") None] -> is_example ct = true ->
              gatherDocTest ct = None) /\
  gatherSymbolDocTests sample_contentless
  = Some (mkDocTestSymbol (name sample_contentless) []).
Proof.
  assert (forall ct, In ct [mkTag (lit "example") None] ->
                     is_example ct = true -> gatherDocTest ct = None) as Hnone.
  { intros ct [<-|[]] _; reflexivity. }
  split; [reflexivity|]. split; [exact Hnone|].
  exact (proj2 (proj2 (C2_symbol_tests_iff_example_tag sample_contentless)
                      (mkDocumentation (Some [mkTag (lit "example") None]))
                      [mkTag (lit "example") None]
                      eq_refl eq_refl eq_refl)
               Hnone).
Defined.

(** C6 at the symbol with T1 and T2, run from the start. *)
Lemma C6_witness :
  tests sample_symbol <> [] /\
  exists new w',
    report_symbol sample_runTest sample_stringify sample_symbol
                  (mkWorld 0 [] 0)
    = (Fulfilled tt, w') /\
    trace w' = new /\
    runTest_calls new = [sample_T1; sample_T2] /\
    exists e,
      reply (sample_runTest 1 sample_T2) = Rejected e /\
      console_lines new
      = map (line_invoking sample_stringify) [sample_T1; sample_T2]
        ++ [line_fail (lit "add") e] /\
      is_infix (err_message e) (line_fail (lit "add") e) /\
      ~ In (line_pass (lit "add")) (console_lines new).
Proof.
  assert (tests sample_symbol <> []) as Hne by discriminate.
  split; [exact Hne|].
  destruct (proj1 (C6_runner_errors_reported_and_contained
                     sample_runTest sample_stringify)
                  sample_symbol (mkWorld 0 [] 0) Hne)
    as [new [w' [Hrun [Htr [Hcalls [_ Hfail]]]]]].
  exists new, w'. split; [exact Hrun|]. split; [exact Htr|].
  split; [exact Hcalls|].
  destruct Hfail as [i [t [e [Hn [Hrej [Hlines [_ [Hmsg Hnot]]]]]]]].
  { exists 1, sample_T2, (new_Error (lit "boom")); split; reflexivity. }
  exists e. simpl in Hn, Hrej.
  destruct i as [|[|i]]; simpl in Hn.
  - injection Hn as <-. discriminate Hrej.
  - injection Hn as <-. repeat split; assumption.
  - destruct i; discriminate Hn.
Defined.

(** C8 at the file [util] of the sample program. *)
Lemma C8_witness :
  get (sourceFiles sample_linked) (lit "util.ts") = Some sample_quiet_file /\
  (forall expName sym,
     get [(lit "helper", Some sample_undocumented)] expName = Some sym ->
     gatherSymbolDocTests sym = None) /\
  gatherFileDocTests sample_quiet_file = Some (mkDocTestFile (lit "util") []) /\
  In (mkDocTestFile (lit "util") []) (gatherProgramDocTests sample_linked).
Proof.
  assert (forall expName sym,
            get [(lit "helper", Some sample_undocumented)] expName = Some sym ->
            gatherSymbolDocTests sym = None) as Hnone.
  { intros expName sym. cbn [get].
    destruct (jsstring_eqb (lit "helper") expName); [|discriminate].
    intros E; injection E as <-; reflexivity. }
  split; [reflexivity|]. split; [exact Hnone|].
  exact (C8_empty_file_is_listed
           sample_linked (lit "util.ts")
           (fileSym := mkSymbol (lit "util") None
                         (Some [(lit "helper", Some sample_undocumented)]))
           eq_refl eq_refl eq_refl Hnone).
Defined.

(** C9 on a run in which the package locator finds nothing. *)
Lemma C9_witness :
  reply (sample_findPkgJson_none (lit "/p")) = Fulfilled None /\
  exists w',
    run (doctestProgram sample_createProgram sample_findPkgJson_none
                        sample_sync sample_walk sample_sync sample_link
                        sample_runTest sample_stringify (lit "/p"))
    = (Rejected (new_Error (msg_no_pkg (lit "/p"))), w') /\
    console_lines (trace w') = [] /\
    runTest_calls (trace w') = [] /\
    map act (trace w')
    = [call_createProgramFromTsConfig (lit "/p"); call_findPkgJson (lit "/p")].
Proof.
  split; [reflexivity|].
  destruct (C9_missing_package_aborts
              sample_createProgram sample_findPkgJson_none
              sample_sync sample_walk sample_sync sample_link
              sample_runTest sample_stringify (lit "/p") (mkWorld 0 [] 0)
              eq_refl)
    as [e [new [w' [Hrun [Htr [_ [Hlines [Hcalls Hcase]]]]]]]].
  simpl in Htr. destruct Hcase as [[prog [_ [-> Hact]]] | [Hrej _]].
  - exists w'. unfold run. rewrite Htr. repeat split; assumption.
  - discriminate Hrej.
Defined.

(** C10 at the sample program, which has an [undefined] file and an
    [undefined] export. *)
Lemma C10_witness :
  wf_linked sample_linked = true /\
  gatherProgramDocTests (linked_without_undefined sample_linked)
  = gatherProgramDocTests sample_linked.
Proof.
  split; [reflexivity|].
  exact (proj1 (C10_undefined_entries_are_skipped sample_linked eq_refl)).
Defined.

(* ================================================================== *)
(** ** Tag extractor: further properties *)

Lemma split_length (sep : N) (s : jsstring) :
  length (split sep s) = S (count_occ N.eq_dec s sep).
Proof.
  induction s as [|c r IH]; simpl; [reflexivity|].
  destruct (N.eqb c sep) eqn:E.
  - apply N.eqb_eq in E; subst c.
    destruct (N.eq_dec sep sep); [|contradiction]. simpl; rewrite IH; reflexivity.
  - apply N.eqb_neq in E. destruct (N.eq_dec c sep); [contradiction|].
    destruct (split sep r); simpl in *; [discriminate | exact IH].
Qed.

Lemma split_total_length (sep : N) (s : jsstring) :
  length (concat (split sep s)) + count_occ N.eq_dec s sep = length s.
Proof.
  induction s as [|c r IH]; simpl; [reflexivity|].
  destruct (N.eqb c sep) eqn:E.
  - apply N.eqb_eq in E; subst c.
    destruct (N.eq_dec sep sep); [|contradiction]. simpl. lia.
  - apply N.eqb_neq in E. destruct (N.eq_dec c sep); [contradiction|].
    destruct (split sep r); simpl in *; lia.
Qed.

Lemma filter_partition_length {A} (f : A -> bool) (l : list A) :
  length (filter (fun x => negb (f x)) l) + length (filter f l) = length l.
Proof.
  induction l as [|x l IH]; simpl; [reflexivity|].
  destruct (f x); simpl; lia.
Qed.

Lemma filter_partition_total (f : jsstring -> bool) (l : list jsstring) :
  total_length (filter (fun x => negb (f x)) l) + total_length (filter f l)
  = total_length l.
Proof.
  unfold total_length. induction l as [|x l IH]; simpl; [reflexivity|].
  destruct (f x); simpl; rewrite !length_app; lia.
Qed.

Lemma split_app (sep : N) (a b : jsstring) :
  split sep (a ++ sep :: b) = split sep a ++ split sep b.
Proof.
  induction a as [|c a IH]; simpl.
  - rewrite N.eqb_refl; reflexivity.
  - destruct (N.eqb c sep); [rewrite IH; reflexivity|].
    rewrite IH. destruct (split sep a) eqn:S;
      [exfalso; exact (split_nonempty _ _ S) | reflexivity].
Qed.

Lemma trimStart_ws_app (ws s : jsstring) :
  forallb isWhiteSpace ws = true -> trimStart (ws ++ s) = trimStart s.
Proof.
  induction ws as [|c ws IH]; simpl; [reflexivity|].
  intros H; apply andb_true_iff in H as [Hc Hw]. rewrite Hc. exact (IH Hw).
Qed.

Lemma trimStart_app_ws (s ws : jsstring) :
  forallb isWhiteSpace ws = true ->
  exists ws', forallb isWhiteSpace ws' = true /\
              trimStart (s ++ ws) = trimStart s ++ ws'.
Proof.
  intros Hw. induction s as [|c s IH]; simpl.
  - exists []; split; [reflexivity|].
    rewrite <- (app_nil_r ws), trimStart_ws_app by exact Hw; reflexivity.
  - destruct (isWhiteSpace c); [exact IH|].
    exists ws; split; [exact Hw | reflexivity].
Qed.

Lemma startsWith_infix (pat s : jsstring) :
  startsWith pat s = true -> exists b, s = pat ++ b.
Proof.
  revert s; induction pat as [|p pat IH]; intros s; simpl.
  - exists s; reflexivity.
  - destruct s as [|c s]; [discriminate|].
    intros H; apply andb_true_iff in H as [E H]. apply N.eqb_eq in E; subst c.
    destruct (IH s H) as [b ->]. exists b; reflexivity.
Qed.

(** X1: the two arrays of a test unit account for the whole content: they
    hold one line more than the content has line feeds (so at least one
    line, also for empty content), and their code units are the code units of
    the content without the line feeds. *)
Theorem gatherDocTest_accounts_for_content (n : jsstring) (c : list jsstring) :
  exists t, gatherDocTest (mkTag n (Some c)) = Some t /\
    length (codeArray t) + length (importsArray t) = S (count_LF (join c)) /\
    total_length (codeArray t) + total_length (importsArray t)
    + count_LF (join c)
    = length (join c).
Proof.
  eexists; split; [apply gatherDocTest_content|]. simpl. split.
  - rewrite filter_partition_length. apply split_length.
  - rewrite filter_partition_total. apply split_total_length.
Qed.

(** X2: no line of a test unit contains a line feed. *)
Theorem gatherDocTest_lines_have_no_LF (n : jsstring) (c : list jsstring) :
  exists t, gatherDocTest (mkTag n (Some c)) = Some t /\
    forall l, In l (codeArray t) \/ In l (importsArray t) -> ~ In LF l.
Proof.
  eexists; split; [apply gatherDocTest_content|]. simpl.
  intros l [H|H]; apply filter_In in H as [H _];
    exact (split_no_sep _ _ _ H).
Qed.

(** X3: the test unit of two contents with a line feed between them is the
    test unit of the first followed, array by array, by the test unit of the
    second: a line is classified on its own, whatever comes before or after
    it. *)
Theorem gatherDocTest_line_feed_composes (n : jsstring) (c1 c2 : list jsstring) :
  exists t1 t2,
    gatherDocTest (mkTag n (Some c1)) = Some t1 /\
    gatherDocTest (mkTag n (Some c2)) = Some t2 /\
    gatherDocTest (mkTag n (Some (c1 ++ [LF] :: c2)))
    = Some (mkDocTest (codeArray t1 ++ codeArray t2)
                      (importsArray t1 ++ importsArray t2)).
Proof.
  eexists _, _. split; [apply gatherDocTest_content|].
  split; [apply gatherDocTest_content|].
  rewrite gatherDocTest_content. simpl.
  unfold join. rewrite concat_app; simpl.
  rewrite split_app, !filter_app; reflexivity.
Qed.

(** X4: the import test of the script does not look at the whitespace around
    a line: indentation and trailing blanks (a carriage return left by a
    CRLF line end among them) change nothing. *)
Theorem import_test_ignores_surrounding_whitespace (ws1 s ws2 : jsstring) :
  forallb isWhiteSpace ws1 = true ->
  forallb isWhiteSpace ws2 = true ->
  Z.eqb (indexOf (trim (ws1 ++ s ++ ws2)) (lit "import")) 0
  = Z.eqb (indexOf (trim s) (lit "import")) 0.
Proof.
  intros H1 H2. rewrite !import_test_refines. unfold spec_isImportLine.
  rewrite trimStart_ws_app by exact H1.
  destruct (@trimStart_app_ws s ws2 H2) as [ws' [Hw' ->]].
  apply startsWith_app_ws; [reflexivity | exact Hw'].
Qed.

Lemma import_test_ignores_surrounding_whitespace_witness :
  forallb isWhiteSpace [9%N; 32%N] = true /\
  forallb isWhiteSpace [CR] = true /\
  Z.eqb (indexOf (trim ([9%N; 32%N] ++ lit "import x from 'y';" ++ [CR]))
                 (lit "import")) 0
  = Z.eqb (indexOf (trim (lit "import x from 'y';")) (lit "import")) 0.
Proof.
  split; [reflexivity|]. split; [reflexivity|].
  exact (import_test_ignores_surrounding_whitespace
           [9%N; 32%N] (lit "import x from 'y';") [CR] eq_refl eq_refl).
Defined.

(** X5: every line of the import array contains the text [import], after
    nothing but whitespace; a line made of whitespace only is never an import
    line. *)
Theorem import_lines_contain_import (n : jsstring) (c : list jsstring) :
  exists t, gatherDocTest (mkTag n (Some c)) = Some t /\
    forall l, In l (importsArray t) ->
      (exists ws rest, l = ws ++ lit "import" ++ rest /\
                       forallb isWhiteSpace ws = true) /\
      forallb isWhiteSpace l = false.
Proof.
  eexists; split; [apply gatherDocTest_content|]. simpl.
  intros l H. apply filter_In in H as [_ H]. unfold spec_isImportLine in H.
  destruct (trimStart_decompose l) as [ws [E W]].
  destruct (startsWith_infix _ _ H) as [rest Hrest].
  assert (l = ws ++ lit "import" ++ rest) as El by (rewrite <- Hrest; exact E).
  split; [exists ws, rest; split; assumption|].
  rewrite El, !forallb_app. simpl. rewrite andb_false_r; reflexivity.
Qed.

(* ================================================================== *)
(** ** Aggregators: further properties *)

Lemma gatherDocTest_defined (ct : CommentBlockTag) :
  isDefined (gatherDocTest ct) = has_content ct.
Proof.
  unfold gatherDocTest, has_content. destruct (content ct); reflexivity.
Qed.

Lemma filter_isDefined_length {A B} (f : A -> option B) (l : list A) :
  length (filter_isDefined (map f l))
  = length (filter (fun x => isDefined (f x)) l).
Proof.
  induction l as [|x l IH]; simpl; [reflexivity|].
  destruct (f x); simpl; rewrite IH; reflexivity.
Qed.

Lemma filter_filter {A} (f g : A -> bool) (l : list A) :
  filter f (filter g l) = filter (fun x => g x && f x) l.
Proof.
  induction l as [|x l IH]; simpl; [reflexivity|].
  destruct (g x); simpl; [destruct (f x)|]; rewrite IH; reflexivity.
Qed.

Lemma existsb_filter_same {A} (f : A -> bool) (l : list A) :
  existsb f (filter f l) = existsb f l.
Proof.
  induction l as [|x l IH]; simpl; [reflexivity|].
  destruct (f x) eqn:E; simpl; rewrite ?E; simpl; [reflexivity | exact IH].
Qed.

Lemma filter_same {A} (f : A -> bool) (l : list A) :
  filter f (filter f l) = filter f l.
Proof.
  rewrite filter_filter. apply filter_ext. intros x; destruct (f x); reflexivity.
Qed.

(** What the symbol aggregator returns, by the tags the symbol has. *)
Lemma gatherSymbolDocTests_cases (sym : LinkedFormattedSymbol) :
  gatherSymbolDocTests sym =
  if has_example_tag sym
  then Some (mkDocTestSymbol
               (name sym)
               (match documentation sym with
                | Some doc =>
                    match customTags doc with
                    | Some tags =>
                        filter_isDefined
                          (map gatherDocTest (filter is_example tags))
                    | None => []
                    end
                | None => []
                end))
  else None.
Proof.
  unfold has_example_tag.
  destruct (documentation sym) as [doc|] eqn:Hd;
    [|unfold gatherSymbolDocTests; rewrite Hd; reflexivity].
  destruct (customTags doc) as [tags|] eqn:Ht;
    [|unfold gatherSymbolDocTests; rewrite Hd, Ht; reflexivity].
  exact (gatherSymbolDocTests_tags sym Hd Ht).
Qed.

Lemma gatherSymbolDocTests_names (syms : list LinkedFormattedSymbol) :
  map dts_name (filter_isDefined (map gatherSymbolDocTests syms))
  = map name (filter has_example_tag syms).
Proof.
  induction syms as [|sym syms IH]; simpl; [reflexivity|].
  rewrite gatherSymbolDocTests_cases.
  destruct (has_example_tag sym); simpl; rewrite IH; reflexivity.
Qed.

Lemma gatherFileDocTests_cases (file : LinkedFormattedSourceFile) :
  gatherFileDocTests file =
  match export_table file with
  | Some e =>
      Some (mkDocTestFile
              (moduleName file)
              (filter_isDefined (map gatherSymbolDocTests (defined_values e))))
  | None => None
  end.
Proof.
  unfold gatherFileDocTests, export_table.
  destruct (symbol file) as [fileSym|]; [|reflexivity].
  destruct (exports fileSym); reflexivity.
Qed.

Lemma gatherFileDocTests_names (files : list LinkedFormattedSourceFile) :
  map dtf_name (filter_isDefined (map gatherFileDocTests files))
  = map moduleName (filter has_export_table files).
Proof.
  induction files as [|file files IH]; simpl; [reflexivity|].
  rewrite gatherFileDocTests_cases. unfold has_export_table at 1.
  destruct (export_table file); simpl; rewrite IH; reflexivity.
Qed.

Lemma filter_isDefined_app {A} (a b : list (option A)) :
  filter_isDefined (a ++ b) = filter_isDefined a ++ filter_isDefined b.
Proof.
  induction a as [|[x|] a IH]; simpl; [reflexivity | f_equal; exact IH | exact IH].
Qed.

Lemma defined_values_NoDup {V} (o : Dict V) :
  NoDup (Object_keys o) -> defined_values o = filter_isDefined (map snd o).
Proof.
  intros H. unfold defined_values. rewrite (get_keys_values o H); reflexivity.
Qed.

Lemma filter_isDefined_map_filter {A B} (f : A -> option B) (l : list A) :
  map Some (filter_isDefined (map f l))
  = map f (filter (fun x => isDefined (f x)) l).
Proof.
  induction l as [|x l IH]; simpl; [reflexivity|].
  destruct (f x) eqn:E; simpl; rewrite ?E, IH; reflexivity.
Qed.

(** X6: the test units of a symbol are, in tag order, the units of its tags
    that are named [example] or [doctest] and have content: there are as many
    units as such tags, never more than there are tags. *)
Theorem gatherSymbolDocTests_test_count
  (sym : LinkedFormattedSymbol) (doc : Documentation)
  (tags : list CommentBlockTag) (r : DocTestSymbol) :
  documentation sym = Some doc -> customTags doc = Some tags ->
  gatherSymbolDocTests sym = Some r ->
  map Some (tests r)
  = map gatherDocTest
        (filter (fun ct => is_example ct && has_content ct) tags) /\
  length (tests r)
  = length (filter (fun ct => is_example ct && has_content ct) tags) /\
  length (tests r) <= length tags.
Proof.
  intros Hd Ht Hr. rewrite (gatherSymbolDocTests_tags sym Hd Ht) in Hr.
  destruct (existsb is_example tags); [|discriminate].
  injection Hr as <-; simpl.
  assert (filter (fun ct => isDefined (gatherDocTest ct))
                 (filter is_example tags)
          = filter (fun ct => is_example ct && has_content ct) tags) as E.
  { rewrite filter_filter. apply filter_ext.
    intros ct; rewrite gatherDocTest_defined; reflexivity. }
  split; [rewrite filter_isDefined_map_filter, E; reflexivity|].
  rewrite filter_isDefined_length, E.
  split; [reflexivity | apply filter_length_le].
Qed.

Lemma gatherSymbolDocTests_test_count_witness :
  documentation sample_add = Some (mkDocumentation (Some [sample_tag])) /\
  gatherSymbolDocTests sample_add
  = Some (mkDocTestSymbol
            (lit "add")
            [mkDocTest [lit "add(1, 2); // 3"]
                       [lit "import { add } from './math';"]]) /\
  1 = length (filter (fun ct => is_example ct && has_content ct) [sample_tag]).
Proof.
  split; [reflexivity|]. split; [reflexivity|].
  exact (proj1 (proj2 (gatherSymbolDocTests_test_count
                         sample_add
                         (doc := mkDocumentation (Some [sample_tag]))
                         eq_refl eq_refl eq_refl))).
Defined.

(** X7: the tags of other names play no part, and neither does the export
    table of the symbol: the symbol aggregator returns the same for a symbol
    reduced to its name and its [example] and [doctest] tags. *)
Theorem gatherSymbolDocTests_ignores_other_tags
  (nm : jsstring) (tags : list CommentBlockTag)
  (e e' : option (list (jsstring * option LinkedFormattedSymbol))) :
  gatherSymbolDocTests (mkSymbol nm (Some (mkDocumentation (Some tags))) e)
  = gatherSymbolDocTests
      (mkSymbol nm (Some (mkDocumentation (Some (filter is_example tags)))) e').
Proof.
  rewrite (gatherSymbolDocTests_tags
             (mkSymbol nm (Some (mkDocumentation (Some tags))) e)
             (doc := mkDocumentation (Some tags)) eq_refl eq_refl).
  rewrite (gatherSymbolDocTests_tags
             (mkSymbol nm
                       (Some (mkDocumentation (Some (filter is_example tags))))
                       e')
             (doc := mkDocumentation (Some (filter is_example tags)))
             eq_refl eq_refl).
  rewrite existsb_filter_same, filter_same; reflexivity.
Qed.

(** X8: the symbols of a file's result are, in the key order of the export
    table, the defined exports that carry an [example] or [doctest] tag, each
    under the name of the symbol itself (not under the export key). *)
Theorem gatherFileDocTests_symbol_names
  (file : LinkedFormattedSourceFile) (r : DocTestFile) :
  gatherFileDocTests file = Some r ->
  exists e, export_table file = Some e /\
    map dts_name (symbols r)
    = map name (filter has_example_tag (defined_values e)).
Proof.
  rewrite gatherFileDocTests_cases.
  destruct (export_table file) as [e|]; [|discriminate].
  intros E; injection E as <-; simpl.
  exists e; split; [reflexivity | apply gatherSymbolDocTests_names].
Qed.

Lemma gatherFileDocTests_symbol_names_witness :
  gatherFileDocTests sample_file
  = Some (mkDocTestFile
            (lit "math")
            [mkDocTestSymbol
               (lit "add")
               [mkDocTest [lit "add(1, 2); // 3"]
                          [lit "import { add } from './math';"]]]) /\
  exists e, export_table sample_file = Some e /\
    [lit "add"] = map name (filter has_example_tag (defined_values e)).
Proof.
  split; [reflexivity|].
  exact (gatherFileDocTests_symbol_names sample_file eq_refl).
Defined.

(** X9: the program aggregator returns one entry for each defined file of the
    source-file mapping that has an export table, in key order, under the
    module name of the file; the files without one leave no trace. *)
Theorem gatherProgramDocTests_file_names (linked : LinkedFormattedOutputData) :
  map dtf_name (gatherProgramDocTests linked)
  = map moduleName
        (filter has_export_table (defined_values (sourceFiles linked))) /\
  length (gatherProgramDocTests linked)
  <= length (Object_keys (sourceFiles linked)).
Proof.
  unfold gatherProgramDocTests. fold (defined_values (sourceFiles linked)).
  split; [apply gatherFileDocTests_names|].
  rewrite <- (length_map dtf_name), gatherFileDocTests_names, length_map.
  eapply Nat.le_trans; [apply filter_length_le|].
  unfold defined_values. rewrite filter_isDefined_length.
  eapply Nat.le_trans; [apply filter_length_le|]. reflexivity.
Qed.

(** X10: the files are aggregated one by one: for a source-file mapping in
    two parts (all keys distinct), the result is the result of the first part
    followed by the result of the second. *)
Theorem gatherProgramDocTests_app (a b : Dict LinkedFormattedSourceFile) :
  distinct (Object_keys (a ++ b)) = true ->
  gatherProgramDocTests (mkLinked (a ++ b))
  = gatherProgramDocTests (mkLinked a) ++ gatherProgramDocTests (mkLinked b).
Proof.
  intros H. apply distinct_NoDup in H.
  assert (NoDup (Object_keys a) /\ NoDup (Object_keys b)) as [Ha Hb].
  { unfold Object_keys in *. rewrite map_app in H.
    split; [exact (NoDup_app_remove_r _ _ H) | exact (NoDup_app_remove_l _ _ H)]. }
  unfold gatherProgramDocTests; simpl.
  fold (defined_values (a ++ b)) (defined_values a) (defined_values b).
  rewrite !defined_values_NoDup by assumption.
  rewrite !map_app, !filter_isDefined_app, map_app, filter_isDefined_app.
  reflexivity.
Qed.

Lemma gatherProgramDocTests_app_witness :
  distinct (Object_keys ([(lit "math.ts", Some sample_file);
                          (lit "old.ts", None)]
                         ++ [(lit "util.ts", Some sample_quiet_file)])) = true
  /\ gatherProgramDocTests sample_linked
     = gatherProgramDocTests
         (mkLinked [(lit "math.ts", Some sample_file); (lit "old.ts", None)])
       ++ gatherProgramDocTests
            (mkLinked [(lit "util.ts", Some sample_quiet_file)]).
Proof.
  split; [reflexivity|].
  exact (gatherProgramDocTests_app
           [(lit "math.ts", Some sample_file); (lit "old.ts", None)]
           [(lit "util.ts", Some sample_quiet_file)] eq_refl).
Defined.

(* ================================================================== *)
(** ** Execution reporter: further properties *)

Lemma Promise_all_cons_settledAt {A} (p : Promise A) (r : list (Promise A)) :
  settledAt (Promise_all (p :: r)) = settledAt p \/
  settledAt (Promise_all (p :: r)) = settledAt (Promise_all r) \/
  settledAt (Promise_all (p :: r))
  = Nat.max (settledAt p) (settledAt (Promise_all r)).
Proof.
  simpl. destruct (outcome p), (outcome (Promise_all r)); simpl; auto.
  destruct (Nat.leb (settledAt p) (settledAt (Promise_all r))); simpl; auto.
Qed.

(** [Promise.all] over promises that settle after [t0] settles after [t0],
    unless there is no promise at all. *)
Lemma Promise_all_settles_later {A} (t0 : nat) (ps : list (Promise A)) :
  (forall p, In p ps -> t0 < settledAt p) ->
  ps = [] \/ t0 < settledAt (Promise_all ps).
Proof.
  induction ps as [|p r IH]; intros H; [left; reflexivity | right].
  assert (t0 < settledAt p) as Hp by (apply H; left; reflexivity).
  destruct IH as [-> | Hr]; [intros q Hq; apply H; right; exact Hq | |].
  - simpl. destruct (outcome p); simpl; lia.
  - destruct (Promise_all_cons_settledAt p r) as [E | [E | E]]; rewrite E; lia.
Qed.

Lemma forallb_in_launch_phase_app (t0 : nat) (a b : list event) :
  forallb (in_launch_phase t0) a = true ->
  forallb (in_launch_phase t0) b = true ->
  forallb (in_launch_phase t0) (a ++ b) = true.
Proof. intros Ha Hb. rewrite forallb_app, Ha, Hb; reflexivity. Qed.

Section ReporterMore.

Variable runTest : nat -> DocTest -> Reply unit.
Variable JSON_stringify : DocTest -> jsstring.

Lemma test_promises_settle_later (t0 k : nat) (ts : list DocTest)
      (p : Promise unit) :
  In p (test_promises runTest t0 k ts) -> t0 < settledAt p.
Proof.
  revert k; induction ts as [|t r IH]; simpl; intros k; [tauto|].
  intros [<-|H]; [simpl; lia | exact (IH _ H)].
Qed.

Lemma test_promises_nonempty (t0 k : nat) (ts : list DocTest) :
  ts <> [] -> test_promises runTest t0 k ts <> [].
Proof. destruct ts; [contradiction | discriminate]. Qed.

Lemma test_events_at (t0 : nat) (ts : list DocTest) (ev : event) :
  In ev (test_events JSON_stringify t0 ts) -> at_tick ev = t0.
Proof.
  induction ts as [|t r IH]; simpl; [tauto|].
  intros [<-|[<-|H]]; [reflexivity | reflexivity | exact (IH H)].
Qed.

Lemma test_events_launch (t0 : nat) (ts : list DocTest) :
  forallb (in_launch_phase t0) (test_events JSON_stringify t0 ts) = true.
Proof.
  induction ts as [|t r IH]; simpl; [reflexivity|].
  unfold in_launch_phase at 1 2; simpl.
  rewrite Nat.leb_refl, Nat.eqb_refl; exact IH.
Qed.

Lemma report_symbol_launch (s : DocTestSymbol) (w : World) :
  exists new w',
    report_symbol runTest JSON_stringify s w = (Fulfilled tt, w') /\
    trace w' = trace w ++ new /\
    forallb (in_launch_phase (now w)) new = true.
Proof.
  destruct (tests s) as [|t0 ts] eqn:Hts.
  - unfold report_symbol. rewrite Hts; simpl. unfold emit.
    eexists _, _; split; [reflexivity|]. split; [reflexivity|].
    simpl. unfold in_launch_phase; simpl. rewrite Nat.leb_refl; reflexivity.
  - assert (tests s <> []) as Hne by (rewrite Hts; discriminate).
    rewrite (report_symbol_run runTest JSON_stringify s w Hne).
    eexists _, _; split; [reflexivity|]. split; [reflexivity|].
    apply forallb_in_launch_phase_app; [apply test_events_launch|].
    simpl. unfold in_launch_phase; simpl.
    rewrite (proj2 (Nat.leb_le _ _) (Nat.le_max_l _ _)); reflexivity.
Qed.

(** Calling an [async] callback that never rejects on every element of an
    array: the caller is still at its tick afterwards, and what was true of
    the events of each call is true of all of them. *)
Lemma Array_map_async_launch {A} (body : A -> Async unit) :
  (forall x w, exists new w',
      body x w = (Fulfilled tt, w') /\
      trace w' = trace w ++ new /\
      forallb (in_launch_phase (now w)) new = true) ->
  forall xs w, exists ps new w',
    Array_map (fun x => async (body x)) xs w = (Fulfilled ps, w') /\
    (forall p, In p ps -> outcome p = Fulfilled tt) /\
    trace w' = trace w ++ new /\
    now w' = now w /\
    forallb (in_launch_phase (now w)) new = true.
Proof.
  intros Hbody. induction xs as [|x xs IH]; intros w; simpl.
  - exists [], [], w; unfold ret; rewrite app_nil_r.
    repeat split; simpl; tauto.
  - destruct (Hbody x w) as [new1 [w1 [E1 [T1 L1]]]].
    destruct (IH (mkWorld (now w) (trace w1) (runs w1)))
      as [ps [new2 [w2 [E2 [F2 [T2 [N2 L2]]]]]]].
    exists (mkPromise (Fulfilled tt) (now w1) :: ps), (new1 ++ new2), w2.
    unfold bind at 1, async at 1. rewrite E1.
    unfold bind at 1. rewrite E2. unfold ret. split; [reflexivity|].
    split; [|split; [|split]].
    + intros p [<-|Hp]; [reflexivity | exact (F2 p Hp)].
    + rewrite T2; simpl. rewrite T1, app_assoc; reflexivity.
    + exact N2.
    + apply forallb_in_launch_phase_app; assumption.
Qed.

Lemma report_file_launch (file : DocTestFile) (w : World) :
  exists new w',
    report_file runTest JSON_stringify file w = (Fulfilled tt, w') /\
    trace w' = trace w ++ new /\
    forallb (in_launch_phase (now w)) new = true.
Proof.
  unfold report_file. destruct (symbols file) as [|s0 ss] eqn:Hs.
  - simpl. unfold emit. eexists _, _; split; [reflexivity|].
    split; [reflexivity|]. simpl. unfold in_launch_phase; simpl.
    rewrite Nat.leb_refl; reflexivity.
  - change (Nat.eqb (length (s0 :: ss)) 0) with false; cbv iota.
    unfold bind at 1, emit at 1.
    destruct (Array_map_async_launch
                (report_symbol runTest JSON_stringify)
                report_symbol_launch (s0 :: ss)
                (mkWorld (now w)
                         (trace w
                          ++ [mkEvent (now w)
                                      (console_log
                                         (line_file (dtf_name file)))])
                         (runs w)))
      as [ps [new [w1 [E1 [F1 [T1 [N1 L1]]]]]]].
    unfold bind at 1. rewrite E1.
    destruct (await_all_fulfilled ps w1 F1) as [w2 [E2 T2]].
    rewrite E2.
    eexists _, w2; split; [reflexivity|]. split.
    + rewrite T2, T1; simpl. rewrite <- app_assoc; reflexivity.
    + simpl in *. unfold in_launch_phase at 1; simpl.
      rewrite Nat.leb_refl; exact L1.
Qed.

(** X11: the tests are launched together.  For a symbol with tests, every
    test is handed to the runner within the tick at which the callback is
    entered, and the line with the verdict is written at a later tick.  For
    the whole program, every call of the runner happens at the tick at which
    the report starts, whatever the runner answers: no test waits for the
    result of another. *)
Theorem tests_are_launched_before_any_verdict :
  (forall (s : DocTestSymbol) (w : World),
      tests s <> [] ->
      exists launch tick line w',
        report_symbol runTest JSON_stringify s w = (Fulfilled tt, w') /\
        trace w' = trace w ++ launch ++ [mkEvent tick (console_log line)] /\
        (forall ev, In ev launch -> at_tick ev = now w) /\
        runTest_calls launch = tests s /\
        now w < tick) /\
  (forall (docTests : list DocTestFile) (w : World),
      exists new w',
        report_program runTest JSON_stringify docTests w
        = (Fulfilled tt, w') /\
        trace w' = trace w ++ new /\
        forallb (in_launch_phase (now w)) new = true).
Proof.
  split.
  - intros s w Hne.
    pose proof (report_symbol_run runTest JSON_stringify s w Hne) as Hrun.
    cbv zeta in Hrun.
    eexists _, _, _, _; split; [exact Hrun|]. split; [reflexivity|].
    split; [intros ev; apply test_events_at|].
    split; [apply test_events_calls|].
    assert (forall p,
               In p (test_promises runTest (now w) (runs w) (tests s)) ->
               now w < settledAt p) as Hlater
      by (intros p; apply test_promises_settle_later).
    destruct (@Promise_all_settles_later _ _ _ Hlater) as [E | H].
    + exfalso; exact (@test_promises_nonempty _ _ _ Hne E).
    + lia.
  - intros docTests w. unfold report_program.
    destruct (Array_map_async_launch
                (report_file runTest JSON_stringify)
                report_file_launch docTests w)
      as [ps [new [w1 [E1 [F1 [T1 [N1 L1]]]]]]].
    unfold bind at 1. rewrite E1.
    destruct (await_all_fulfilled ps w1 F1) as [w2 [E2 T2]].
    rewrite E2. exists new, w2; split; [reflexivity|].
    split; [rewrite T2; exact T1 | exact L1].
Qed.

(** X12: a symbol with [example] or [doctest] tags none of which has content
    goes through both stages: the symbol aggregator returns it, and the
    reporter writes its [no doctests] line and nothing else, without calling
    the runner. *)
Theorem contentless_symbol_is_reported_without_tests
  (sym : LinkedFormattedSymbol) (doc : Documentation)
  (tags : list CommentBlockTag) :
  documentation sym = Some doc -> customTags doc = Some tags ->
  existsb is_example tags = true ->
  (forall ct, In ct tags -> is_example ct = true -> content ct = None) ->
  exists r,
    gatherSymbolDocTests sym = Some r /\
    forall w,
      report_symbol runTest JSON_stringify r w
      = (Fulfilled tt,
         mkWorld (now w)
                 (trace w
                  ++ [mkEvent (now w)
                              (console_log (line_symbol_empty (name sym)))])
                 (runs w)).
Proof.
  intros Hd Ht Hex Hnone.
  rewrite (gatherSymbolDocTests_tags sym Hd Ht), Hex.
  rewrite filter_isDefined_all_None.
  - eexists; split; [reflexivity|]. intros w; reflexivity.
  - intros ct Hct. apply filter_In in Hct as [Hin Hex'].
    unfold gatherDocTest. rewrite (Hnone ct Hin Hex'); reflexivity.
Qed.

(** X13: a file with an export table none of whose defined exports carries
    an [example] or [doctest] tag goes through both stages: the file
    aggregator returns it, and the reporter writes its
    [no exported symbols w/ doctests] line and nothing else, without calling
    the runner. *)
Theorem quiet_file_is_reported_without_tests
  (file : LinkedFormattedSourceFile) (e : Dict LinkedFormattedSymbol) :
  export_table file = Some e ->
  (forall sym, In sym (defined_values e) -> has_example_tag sym = false) ->
  exists r,
    gatherFileDocTests file = Some r /\
    forall w,
      report_file runTest JSON_stringify r w
      = (Fulfilled tt,
         mkWorld (now w)
                 (trace w
                  ++ [mkEvent (now w)
                              (console_log
                                 (line_file_empty (moduleName file)))])
                 (runs w)).
Proof.
  intros He Hnone. rewrite gatherFileDocTests_cases, He.
  rewrite filter_isDefined_all_None.
  - eexists; split; [reflexivity|]. intros w; reflexivity.
  - intros sym Hin. rewrite gatherSymbolDocTests_cases, (Hnone sym Hin).
    reflexivity.
Qed.

End ReporterMore.

Lemma tests_are_launched_before_any_verdict_witness :
  tests sample_symbol <> [] /\
  exists launch tick line w',
    report_symbol sample_runTest sample_stringify sample_symbol
                  (mkWorld 0 [] 0)
    = (Fulfilled tt, w') /\
    trace w' = launch ++ [mkEvent tick (console_log line)] /\
    runTest_calls launch = [sample_T1; sample_T2] /\
    0 < tick.
Proof.
  assert (tests sample_symbol <> []) as Hne by discriminate.
  split; [exact Hne|].
  destruct (proj1 (tests_are_launched_before_any_verdict
                     sample_runTest sample_stringify)
                  sample_symbol (mkWorld 0 [] 0) Hne)
    as [launch [tick [line [w' [Hrun [Htr [_ [Hcalls Hlater]]]]]]]].
  exists launch, tick, line, w'. repeat split; assumption.
Defined.

Lemma contentless_symbol_is_reported_without_tests_witness :
  existsb is_example [mkTag (lit "example") None] = true /\
  exists r,
    gatherSymbolDocTests sample_contentless = Some r /\
    forall w,
      report_symbol sample_runTest sample_stringify r w
      = (Fulfilled tt,
         mkWorld (now w)
                 (trace w
                  ++ [mkEvent (now w)
                              (console_log (line_symbol_empty (lit "add")))])
                 (runs w)).
Proof.
  split; [reflexivity|].
  apply (contentless_symbol_is_reported_without_tests
           sample_runTest sample_stringify sample_contentless
           (doc := mkDocumentation (Some [mkTag (lit "example") None]))
           eq_refl eq_refl eq_refl).
  intros ct [<-|[]] _; reflexivity.
Defined.

Lemma quiet_file_is_reported_without_tests_witness :
  export_table sample_quiet_file
  = Some [(lit "helper", Some sample_undocumented)] /\
  exists r,
    gatherFileDocTests sample_quiet_file = Some r /\
    forall w,
      report_file sample_runTest sample_stringify r w
      = (Fulfilled tt,
         mkWorld (now w)
                 (trace w
                  ++ [mkEvent (now w)
                              (console_log (line_file_empty (lit "util")))])
                 (runs w)).
Proof.
  split; [reflexivity|].
  apply (quiet_file_is_reported_without_tests
           sample_runTest sample_stringify sample_quiet_file
           (e := [(lit "helper", Some sample_undocumented)]) eq_refl).
  intros sym [<-|[]]; reflexivity.
Defined.

(* ================================================================== *)
(** ** The entry operation: further properties *)

Lemma or_else_truthy (a b : option jsstring) :
  or_else a b = if truthy a then a else b.
Proof. destruct a as [[|c s]|]; reflexivity. Qed.

Section EntryMore.

Variables Program PathNormalizer WalkerOutput FormatterData : Type.
Variable createProgramFromTsConfig : jsstring -> Reply Program.
Variable findPkgJson : jsstring -> Reply (option Pkg).
Variable createReverseResolver : PkgInfo -> settled PathNormalizer.
Variable walkProgram : Program -> PathNormalizer -> settled WalkerOutput.
Variable formatWalkerOutput : WalkerOutput -> settled FormatterData.
Variable linkFormatterData :
  FormatterData -> settled LinkedFormattedOutputData.
Variable runTest : nat -> DocTest -> Reply unit.
Variable JSON_stringify : DocTest -> jsstring.

(** X14: the entry operation can only be rejected during its setup.  When it
    is rejected, the error is the one about the missing [package.json] or an
    error raised by one of the collaborators of the setup, nothing has been
    written to the console and the runner has not been called.  Otherwise it
    is fulfilled, whatever the runner answers, and the runner has been handed
    every test gathered from the linked program, once and in order. *)
Theorem doctestProgram_rejects_only_in_setup (pth : jsstring) (w : World) :
  exists r new w',
    doctestProgram createProgramFromTsConfig findPkgJson
                   createReverseResolver walkProgram formatWalkerOutput
                   linkFormatterData runTest JSON_stringify pth w
    = (r, w') /\
    trace w' = trace w ++ new /\
    match r with
    | Rejected e =>
        console_lines new = [] /\ runTest_calls new = [] /\
        runs w' = runs w /\
        ((reply (findPkgJson pth) = Fulfilled None /\
          e = new_Error (msg_no_pkg pth)) \/
         reply (createProgramFromTsConfig pth) = Rejected e \/
         reply (findPkgJson pth) = Rejected e \/
         (exists pkg, reply (findPkgJson pth) = Fulfilled (Some pkg) /\
                      createReverseResolver (pkgInfo_of pkg) = Rejected e) \/
         (exists prog pn, walkProgram prog pn = Rejected e) \/
         (exists wo, formatWalkerOutput wo = Rejected e) \/
         (exists fd, linkFormatterData fd = Rejected e))
    | Fulfilled _ =>
        exists fd linked,
          linkFormatterData fd = Fulfilled linked /\
          runTest_calls new = all_tests (gatherProgramDocTests linked)
    end.
Proof.
  destruct w as [n tr k].
  unfold doctestProgram.
  set (rp := report_program runTest JSON_stringify).
  unfold call, call_async, bind, emit, await, throw; simpl.
  destruct (reply (createProgramFromTsConfig pth)) as [prog|e] eqn:H1; simpl.
  2:{ eexists _, _, _; split; [reflexivity|]. split; [reflexivity|].
      simpl. repeat split; auto. }
  destruct (reply (findPkgJson pth)) as [[pkg|]|e] eqn:H2; simpl.
  2:{ eexists _, _, _; split; [reflexivity|].
      split; [rewrite <- app_assoc; reflexivity|]. simpl. repeat split; auto. }
  2:{ eexists _, _, _; split; [reflexivity|].
      split; [rewrite <- app_assoc; reflexivity|]. simpl. repeat split; auto. }
  fold (pkgInfo_of pkg).
  destruct (createReverseResolver (pkgInfo_of pkg)) as [pn|e] eqn:H3.
  2:{ eexists _, _, _; split; [reflexivity|].
      split; [rewrite <- !app_assoc; reflexivity|]. simpl.
      repeat split; auto. do 3 right; left.
      exists pkg; split; [reflexivity | exact H3]. }
  destruct (walkProgram prog pn) as [wo|e] eqn:H4.
  2:{ eexists _, _, _; split; [reflexivity|].
      split; [rewrite <- !app_assoc; reflexivity|]. simpl.
      repeat split; auto. do 4 right; left. exists prog, pn; exact H4. }
  destruct (formatWalkerOutput wo) as [fd|e] eqn:H5.
  2:{ eexists _, _, _; split; [reflexivity|].
      split; [rewrite <- !app_assoc; reflexivity|]. simpl.
      repeat split; auto. do 5 right; left. exists wo; exact H5. }
  destruct (linkFormatterData fd) as [linked|e] eqn:H6.
  2:{ eexists _, _, _; split; [reflexivity|].
      split; [rewrite <- !app_assoc; reflexivity|]. simpl.
      repeat split; auto. do 6 right. exists fd; exact H6. }
  match goal with
  | |- context [rp ?d ?w0] =>
      destruct (report_program_contained runTest JSON_stringify d w0)
        as [new [w' [Hrun [Htr Hcalls]]]]
  end.
  unfold rp. rewrite Hrun.
  eexists _, _, w'; split; [reflexivity|]. split.
  - rewrite Htr; simpl. rewrite <- !app_assoc. reflexivity.
  - exists fd, linked. split; [exact H6|].
    simpl. exact Hcalls.
Qed.

(** X15: the [main] entry handed to the path resolver is [doc:main] when that
    is a non-empty string, else [main] when that is one, else the path of the
    package descriptor; it is never [undefined].  The entry operation uses
    the resolver on this [pkgInfo] object and on no other. *)
Theorem doctestProgram_pkgInfo_main (pth : jsstring) (pkg : Pkg) :
  info_main (pkgInfo_of pkg)
  = (if truthy (pkg_doc_main (contents pkg)) then pkg_doc_main (contents pkg)
     else if truthy (pkg_main (contents pkg)) then pkg_main (contents pkg)
          else Some (pkg_path pkg)) /\
  isDefined (info_main (pkgInfo_of pkg)) = true /\
  (reply (findPkgJson pth) = Fulfilled (Some pkg) ->
   forall (resolver : PkgInfo -> settled PathNormalizer) (w : World),
     resolver (pkgInfo_of pkg) = createReverseResolver (pkgInfo_of pkg) ->
     doctestProgram createProgramFromTsConfig findPkgJson
                    resolver walkProgram formatWalkerOutput
                    linkFormatterData runTest JSON_stringify pth w
     = doctestProgram createProgramFromTsConfig findPkgJson
                      createReverseResolver walkProgram formatWalkerOutput
                      linkFormatterData runTest JSON_stringify pth w).
Proof.
  assert (info_main (pkgInfo_of pkg)
          = (if truthy (pkg_doc_main (contents pkg))
             then pkg_doc_main (contents pkg)
             else if truthy (pkg_main (contents pkg))
                  then pkg_main (contents pkg)
                  else Some (pkg_path pkg))) as Hmain.
  { unfold pkgInfo_of; simpl. rewrite !or_else_truthy.
    destruct (pkg_doc_main (contents pkg)) as [[|c s]|];
      destruct (pkg_main (contents pkg)) as [[|c' s']|]; reflexivity. }
  split; [exact Hmain|]. split.
  - rewrite Hmain.
    destruct (pkg_doc_main (contents pkg)) as [[|c s]|];
      destruct (pkg_main (contents pkg)) as [[|c' s']|]; reflexivity.
  - intros Hpkg resolver w Hres. destruct w as [n tr k].
    unfold doctestProgram, call, call_async, bind, emit, await; simpl.
    destruct (reply (createProgramFromTsConfig pth)); [|reflexivity].
    rewrite Hpkg. fold (pkgInfo_of pkg). rewrite Hres; reflexivity.
Qed.

End EntryMore.

Lemma doctestProgram_pkgInfo_main_witness :
  reply (sample_findPkgJson (lit "/p"))
  = Fulfilled (Some (mkPkg (lit "/p/package.json")
                           (mkPkgContents (Some (lit "p")) None
                                          (Some (lit "index.js"))))) /\
  info_main (pkgInfo_of (mkPkg (lit "/p/package.json")
                               (mkPkgContents (Some (lit "p")) None
                                              (Some (lit "index.js")))))
  = Some (lit "index.js").
Proof.
  split; [reflexivity|].
  exact (proj1 (doctestProgram_pkgInfo_main
                  sample_createProgram sample_findPkgJson sample_sync
                  sample_walk sample_sync sample_link sample_runTest
                  sample_stringify (lit "/p")
                  (mkPkg (lit "/p/package.json")
                         (mkPkgContents (Some (lit "p")) None
                                        (Some (lit "index.js")))))).
Defined.
